(** * pyvest: the cached market-data loader and the Asset value object

    A shallow embedding of

      - src/pyvest/src/pyvest/dataloader.py   (module [PkgLoader] below),
      - src/pyvest/src/dataloader.py          (module [SrcLoader] below),
      - src/pyvest/src/pyvest/asset.py        (module [AssetModel] below),

    and the properties of the range classifier, the cache store and the
    fetch functions that the specification states about them.

    Conventions.
      - A [pd.Timestamp] is its integer value: nanoseconds since the epoch,
        a [Z].  [pd.Timedelta(days=1)] is [86400 * 10^9] of them.  A calendar
        date is a timestamp at midnight, a multiple of one day.  pandas
        keeps the value in 64 bits: [in_ns_range] is the range, and a sum
        that leaves it raises ([check_date_overlap_call]).  NaT, which
        [pd.to_datetime] returns for some strings, is [None] where a
        parsed date is expected.
      - A Python [str] is a [string]; the character functions ([str.upper],
        [str.strip]) are modelled on ASCII text, and the properties that
        depend on them are stated for ASCII strings ([is_ascii]).
      - Prices are Python floats.  The loader stores and returns them and
        never computes on them; they are carried as rationals.
      - Code that raises returns [Raise e]; code that touches the cache
        directory, the logger, standard output or the remote source runs in
        the state-and-error monad [M] over [World]. *)

From Stdlib Require Import ZArith QArith String Ascii List Bool Lia.
From stdpp Require Import gmap strings list fin_maps.
Import ListNotations.

Local Open Scope string_scope.
Local Open Scope Z_scope.

(** ** Timestamps *)

Definition Timestamp : Type := Z.

(** [pd.Timedelta(days=n)], in nanoseconds. *)
Definition Timedelta_days (n : Z) : Z := n * 86400000000000.

Definition one_day : Z := Timedelta_days 1.

(** Calendar-date granularity: no time of day. *)
Definition is_date (t : Timestamp) : Prop := t mod one_day = 0.


Definition date_interval (s e : Timestamp) : Prop :=
  is_date s /\ is_date e /\ s <= e.

(** ** The range classifier

    [_check_date_overlap] is the same function, statement for statement, in
    both copies of dataloader.py (lines 52-92 and 50-90). *)

Definition OverlapResult : Type := string * option Timestamp * option Timestamp.

Definition _check_date_overlap
  (cached_start cached_end req_start req_end : Timestamp) : OverlapResult :=
  if (cached_end <? req_start) || (cached_start >? req_end) then
    ("miss", None, None)
  else if (cached_start =? req_start) && (cached_end =? req_end) then
    ("exact", None, None)
  else if (cached_start <=? req_start) && (cached_end >=? req_end) then
    ("contains", None, None)
  else if (cached_start <=? req_start) && (cached_end <? req_end) then
    let gap_start := cached_end + Timedelta_days 1 in
    let gap_end := req_end in
    ("overlap_after", Some gap_start, Some gap_end)
  else if (cached_start >? req_start) && (cached_end >=? req_end) then
    let gap_start := req_start in
    let gap_end := cached_start - Timedelta_days 1 in
    ("overlap_before", Some gap_start, Some gap_end)
  else
    ("miss", None, None).

Definition status_of (r : OverlapResult) : string := fst (fst r).
Definition gap_start_of (r : OverlapResult) : option Timestamp := snd (fst r).
Definition gap_end_of (r : OverlapResult) : option Timestamp := snd r.

(** The decision order of the specification (section 4.1), rule by rule.
    Each rule carries the guard of the specification and the failure of
    every earlier guard: first match wins. *)

Definition g_disjoint (cs ce rs re : Timestamp) : Prop := ce < rs \/ cs > re.
Definition g_equal (cs ce rs re : Timestamp) : Prop := cs = rs /\ ce = re.
Definition g_contains (cs ce rs re : Timestamp) : Prop := cs <= rs /\ ce >= re.
Definition g_after (cs ce rs re : Timestamp) : Prop := cs <= rs /\ ce < re.
Definition g_before (cs ce rs re : Timestamp) : Prop := cs > rs /\ ce >= re.


Definition categories : list string :=
  ["miss"; "exact"; "contains"; "overlap_after"; "overlap_before"].

(** ** Python strings and paths *)

(** [s.split(sep)] for a one-character separator: every occurrence of
    [sep] cuts, empty parts are kept, and the result is never empty. *)
Fixpoint py_split (sep : ascii) (s : string) : list string :=
  match s with
  | EmptyString => [EmptyString]
  | String c s' =>
      if Ascii.eqb c sep then EmptyString :: py_split sep s'
      else match py_split sep s' with
           | [] => [String c EmptyString]
           | p :: ps => String c p :: ps
           end
  end.

(** [s.rfind(c)]: the index of the last occurrence, [None] for -1. *)
Fixpoint py_rfind (c : ascii) (s : string) : option nat :=
  match s with
  | EmptyString => None
  | String a s' =>
      match py_rfind c s' with
      | Some i => Some (S i)
      | None => if Ascii.eqb a c then Some O else None
      end
  end.

(** [s.startswith(p)]. *)
Definition py_startswith (s p : string) : bool := String.prefix p s.

(** [c in s] for a character. *)
Fixpoint py_contains (c : ascii) (s : string) : bool :=
  match s with
  | EmptyString => false
  | String a s' => Ascii.eqb a c || py_contains c s'
  end.

(** [pathlib.PurePath.suffix] and [.stem] of a final path component:
    with [i = name.rfind('.')], the suffix is [name[i:]] and the stem
    [name[:i]] when [0 < i < len(name) - 1]; else the suffix is empty and
    the stem is the whole name. *)
Definition path_has_suffix (name : string) : option nat :=
  match py_rfind "." name with
  | Some i =>
      if (0 <? i)%nat && (i <? String.length name - 1)%nat then Some i
      else None
  | None => None
  end.

Definition path_suffix (name : string) : string :=
  match path_has_suffix name with
  | Some i => String.substring i (String.length name - i) name
  | None => EmptyString
  end.

Definition path_stem (name : string) : string :=
  match path_has_suffix name with
  | Some i => String.substring 0 i name
  | None => name
  end.

(** The string is ASCII text: every character is below 128. *)
Fixpoint is_ascii (s : string) : bool :=
  match s with
  | EmptyString => true
  | String c s' => (nat_of_ascii c <? 128)%nat && is_ascii s'
  end.

(** [str.isspace] on an ASCII character: tab, newline, vertical tab, form
    feed, carriage return, the four separators 0x1c-0x1f and the space. *)
Definition py_isspace (c : ascii) : bool :=
  let n := nat_of_ascii c in
  ((9 <=? n)%nat && (n <=? 13)%nat) || ((28 <=? n)%nat && (n <=? 32)%nat).

Fixpoint py_lstrip (s : string) : string :=
  match s with
  | EmptyString => EmptyString
  | String c s' => if py_isspace c then py_lstrip s' else s
  end.

(** [s.rstrip()]: a character is kept when something after it, or itself,
    is not white space. *)
Fixpoint py_rstrip (s : string) : string :=
  match s with
  | EmptyString => EmptyString
  | String c s' =>
      match py_rstrip s' with
      | EmptyString => if py_isspace c then EmptyString else String c EmptyString
      | r => String c r
      end
  end.

Definition py_strip (s : string) : string := py_rstrip (py_lstrip s).

(** Every character is white space (true of the empty string). *)
Fixpoint whitespace_only (s : string) : bool :=
  match s with
  | EmptyString => true
  | String c s' => py_isspace c && whitespace_only s'
  end.

Definition py_islower (c : ascii) : bool :=
  let n := nat_of_ascii c in (97 <=? n)%nat && (n <=? 122)%nat.

Definition upper_char (c : ascii) : ascii :=
  if py_islower c then ascii_of_nat (nat_of_ascii c - 32) else c.

(** [s.upper()] on ASCII text. *)
Fixpoint py_upper (s : string) : string :=
  match s with
  | EmptyString => EmptyString
  | String c s' => String (upper_char c) (py_upper s')
  end.

(** ** Exceptions and results *)

Inductive Exn : Type :=
| ValueError
| KeyError
| UnpicklingError
| EOFError
| OSError
| TypeError
| ConnectionError.

Inductive result (A : Type) : Type :=
| Ok (a : A)
| Raise (e : Exn).

Arguments Ok {A} a.
Arguments Raise {A} e.

Definition rbind {A B : Type} (r : result A) (k : A -> result B) : result B :=
  match r with
  | Ok a => k a
  | Raise e => Raise e
  end.

(** A library call that signals failure with a ValueError. *)
Definition or_ValueError {A : Type} (o : option A) : result A :=
  match o with
  | Some a => Ok a
  | None => Raise ValueError
  end.

(** ** The nanosecond range, and NaT

    A [pd.Timestamp] at nanosecond resolution holds a signed 64-bit count,
    the least value being kept for NaT.  Adding or subtracting a
    [pd.Timedelta] raises OutOfBoundsDatetime, a ValueError, when the
    result leaves the range.  [_check_date_overlap] above is the
    classification with the sums of lines 82 and 89 written as exact sums;
    [check_date_overlap_call] is a call of the method on timestamps of the
    range: the same triple when the gap bounds computed are in the range,
    the exception otherwise. *)

Definition ns_max : Z := 9223372036854775807.
Definition ns_min : Z := - 9223372036854775807.

Definition in_ns_range (t : Timestamp) : Prop := ns_min <= t /\ t <= ns_max.

Definition in_ns_range_b (t : Timestamp) : bool := (ns_min <=? t) && (t <=? ns_max).

Definition bound_representable (o : option Timestamp) : bool :=
  match o with
  | Some t => in_ns_range_b t
  | None => true
  end.

Definition representable (r : OverlapResult) : bool :=
  bound_representable (gap_start_of r) && bound_representable (gap_end_of r).

Definition check_date_overlap_call
  (cached_start cached_end req_start req_end : Timestamp) : result OverlapResult :=
  let r := _check_date_overlap cached_start cached_end req_start req_end in
  if representable r then Ok r else Raise ValueError.

(** A bound parsed from a file name is a timestamp or NaT ([None]).
    Every comparison with NaT is False: with NaT for a cached bound no
    guard of lines 69-87 that leads to another answer holds, and the
    method returns a miss. *)
Definition check_date_overlap_parsed
  (cached_start cached_end : option Timestamp) (req_start req_end : Timestamp)
  : result OverlapResult :=
  match cached_start, cached_end with
  | Some cs, Some ce => check_date_overlap_call cs ce req_start req_end
  | _, _ => Ok ("miss", None, None)
  end.

(** ** pandas

    The parsers and the business-day range are library code.  They are an
    interface here; [iso_pandas] below is an instance on ISO dates.
    For [pd.Timestamp(s)], [None] stands for the ValueError pandas raises
    on a string it cannot parse (DateParseError and OutOfBoundsDatetime
    are ValueErrors).  [pd.to_datetime(s)] has three outcomes: a
    timestamp, [to_datetime s = Some t]; NaT, for the empty string among
    others, [to_datetime s = None] with [to_datetime_NaT s = true]; a
    ValueError, [to_datetime s = None] with [to_datetime_NaT s = false]. *)

Class Pandas : Type := {
  Timestamp_parse : string -> option Timestamp;  (* pd.Timestamp(s) *)
  to_datetime : string -> option Timestamp;      (* pd.to_datetime(s) *)
  to_datetime_NaT : string -> bool;              (* pd.to_datetime(s) is NaT *)
  bdate_range : Timestamp -> nat -> list Timestamp
    (* pd.bdate_range(start=., periods=.) *)
}.

(** [pd.to_datetime(s)] on a part of a file name: a timestamp, NaT
    ([Ok None]) or a ValueError. *)
Definition parse_cached `{Pandas} (s : string) : result (option Timestamp) :=
  match to_datetime s with
  | Some t => Ok (Some t)
  | None => if to_datetime_NaT s then Ok None else Raise ValueError
  end.

(** [pd.bdate_range(start=cached_start, periods=n)]; NaT is no start. *)
Definition bdate_range_from `{Pandas} (start : option Timestamp) (n : nat)
  : result (list Timestamp) :=
  match start with
  | Some t => Ok (bdate_range t n)
  | None => Raise ValueError
  end.

Definition price : Type := Q.

Inductive Index : Type :=
| RangeIndex (n : nat)
| DatetimeIndex (ts : list Timestamp).

Definition Index_len (i : Index) : nat :=
  match i with
  | RangeIndex n => n
  | DatetimeIndex ts => List.length ts
  end.

Record DataFrame : Type := {
  df_index : Index;
  df_columns : list (string * list price)
}.

Record Series : Type := {
  s_index : Index;
  s_values : list price;
  s_name : string
}.

(** [pd.DataFrame({col: values})]. *)
Definition DataFrame_of_column (col : string) (vals : list price) : DataFrame :=
  {| df_index := RangeIndex (List.length vals); df_columns := [(col, vals)] |}.

Definition df_len (df : DataFrame) : nat := Index_len (df_index df).

(** [df.empty]: some axis has length zero. *)
Definition df_empty (df : DataFrame) : bool :=
  (df_len df =? 0)%nat || (List.length (df_columns df) =? 0)%nat.

(** [df.index = idx]: a ValueError on a length mismatch. *)
Definition df_set_index (df : DataFrame) (idx : list Timestamp) : result DataFrame :=
  if (List.length idx =? df_len df)%nat then
    Ok {| df_index := DatetimeIndex idx; df_columns := df_columns df |}
  else Raise ValueError.

(** [col in df.columns]. *)
Definition df_has_column (df : DataFrame) (col : string) : bool :=
  existsb (String.eqb col) (map fst (df_columns df)).

Fixpoint assoc_get {A : Type} (k : string) (l : list (string * A)) : option A :=
  match l with
  | [] => None
  | (k', v) :: l' => if String.eqb k k' then Some v else assoc_get k l'
  end.

(** [df.loc[:, col]]: a KeyError when the label is absent. *)
Definition df_loc_column (df : DataFrame) (col : string) : result Series :=
  match assoc_get col (df_columns df) with
  | Some vals => Ok {| s_index := df_index df; s_values := vals; s_name := col |}
  | None => Raise KeyError
  end.

Definition series_empty (s : Series) : bool := (Index_len (s_index s) =? 0)%nat.

(** Modelled from the spec: pyvest/priceseries.py is not among the sources.
    The Series Value Object is "a named sequence of (timestamp, value)
    pairs"; the loader builds it with [PriceSeries(values=..., name=...)]
    and [Asset] takes its [len] and its [values]. *)
Record PriceSeries : Type := {
  values : Series;
  name : string
}.

Definition PriceSeries_len (p : PriceSeries) : nat := List.length (s_values (values p)).

(** ** The cache directory, the logger and the remote source *)

(** The dict that [_save_to_cache] pickles.  ['prices'] and ['dates'] are
    optional so that a payload lacking them can be stored: [data['prices']]
    on a payload without the key is a KeyError, [data.get('dates')] without
    the key (or with the value None) is None.  ['price_col'] is written by
    the package copy only. *)
Record CacheData : Type := {
  d_ticker : string;
  d_start : string;
  d_end : string;
  d_fetched_at : string;
  d_n_prices : Z;
  d_prices : option (list price);
  d_dates : option (list Timestamp);
  d_price_col : option string
}.

(** What [open(path, 'rb')] followed by [pickle.load] gives for a file:
    the pickled dict, or the exception one of the two calls raises. *)
Inductive FileContent : Type :=
| Pickled (data : CacheData)
| Broken (e : Exn).

Record DirEntry : Type := {
  e_name : string;
  e_is_file : bool;
  e_content : FileContent
}.

Inductive LogRecord : Type :=
| LogWarning (file : string) (e : Exn)   (* "Fichier cache corrompu {file}: {e}" *)
| LogDebug (file : string).              (* "Cache sauvegarde: {file}" *)

(** One call of [yf.Ticker(ticker).history(start=, end=)]. *)
Definition FetchCall : Type := (string * Timestamp * Timestamp)%type.

Record World : Type := {
  cache_dir : option (list DirEntry);
    (* None: the directory does not exist; else its entries in the order
       [iterdir()] yields them *)
  remote : string -> Timestamp -> Timestamp -> result DataFrame;
    (* the data the external source serves *)
  fetches : list FetchCall;       (* calls made to the external source *)
  log : list LogRecord;           (* logger records, oldest first *)
  stdout : list string;           (* lines printed, oldest first *)
  clock : string                  (* datetime.now().isoformat() *)
}.

Definition M (A : Type) : Type := World -> result A * World.

Definition ret {A : Type} (a : A) : M A := fun w => (Ok a, w).

Definition raise {A : Type} (e : Exn) : M A := fun w => (Raise e, w).

Definition bind {A B : Type} (m : M A) (k : A -> M B) : M B :=
  fun w =>
    match m w with
    | (Ok a, w') => k a w'
    | (Raise e, w') => (Raise e, w')
    end.

Definition lift {A : Type} (r : result A) : M A := fun w => (r, w).

Notation "'do' x <- m ; k" := (bind m (fun x => k))
  (at level 10, x name, m at level 100, k at level 200).
Notation "'run' m ; k" := (bind m (fun _ => k))
  (at level 10, m at level 100, k at level 200).

Definition set_cache_dir (d : option (list DirEntry)) (w : World) : World :=
  {| cache_dir := d; remote := remote w; fetches := fetches w;
     log := log w; stdout := stdout w; clock := clock w |}.

Definition logger (r : LogRecord) : M unit := fun w =>
  (Ok tt,
   {| cache_dir := cache_dir w; remote := remote w; fetches := fetches w;
      log := List.app (log w) [r]; stdout := stdout w; clock := clock w |}).

Definition print (line : string) : M unit := fun w =>
  (Ok tt,
   {| cache_dir := cache_dir w; remote := remote w; fetches := fetches w;
      log := log w; stdout := List.app (stdout w) [line]; clock := clock w |}).

(** [yf.Ticker(ticker).history(start=start, end=end)]: one external call,
    recorded, answered by the remote source. *)
Definition history (ticker : string) (start end_ : Timestamp) : M DataFrame :=
  fun w =>
    (remote w ticker start end_,
     {| cache_dir := cache_dir w; remote := remote w;
        fetches := List.app (fetches w) [(ticker, start, end_)];
        log := log w; stdout := stdout w; clock := clock w |}).

Definition now_isoformat : M string := fun w => (Ok (clock w), w).

(** [open(path, 'rb')] and [pickle.load]. *)
Definition read_pickle (e : DirEntry) : result CacheData :=
  match e_content e with
  | Pickled data => Ok data
  | Broken ex => Raise ex
  end.

Fixpoint replace_entry (nm : string) (c : FileContent) (es : list DirEntry)
  : option (list DirEntry) :=
  match es with
  | [] => None
  | e :: es' =>
      if String.eqb (e_name e) nm then
        Some ({| e_name := nm; e_is_file := true; e_content := c |} :: es')
      else option_map (cons e) (replace_entry nm c es')
  end.

Fixpoint find_entry (nm : string) (es : list DirEntry) : option DirEntry :=
  match es with
  | [] => None
  | e :: es' => if String.eqb (e_name e) nm then Some e else find_entry nm es'
  end.

(** [open(path, 'wb')] and [pickle.dump] for a path directly under the cache
    directory.  The directory is flat: a name with a slash, a missing
    directory or a name held by a directory is an OSError.  An existing
    file is overwritten in place; a new file is enumerated last. *)
Definition write_pickle (nm : string) (data : CacheData) : M unit := fun w =>
  match cache_dir w with
  | None => (Raise OSError, w)
  | Some es =>
      if py_contains "/" nm then (Raise OSError, w)
      else
        match find_entry nm es with
        | Some e =>
            if e_is_file e then
              match replace_entry nm (Pickled data) es with
              | Some es' => (Ok tt, set_cache_dir (Some es') w)
              | None => (Raise OSError, w)
              end
            else (Raise OSError, w)
        | None =>
            (Ok tt,
             set_cache_dir
               (Some (List.app es [{| e_name := nm; e_is_file := true;
                                e_content := Pickled data |}])) w)
        end
  end.

(** Two runs of the same call, one after the other. *)
Definition twice {A : Type} (m : M A) (w : World) : result A * result A * World :=
  let '(r1, w1) := m w in
  let '(r2, w2) := m w1 in
  (r1, r2, w2).

(** ** The cache lookup

    [_load_from_cache] is the same in both copies of dataloader.py
    (lines 94-186 and 92-184). *)

Definition LoadResult : Type :=
  (option DataFrame * string * option (option Timestamp * option Timestamp))%type.

(** [except (ValueError, KeyError, pickle.UnpicklingError)]. *)
Definition caught (e : Exn) : bool :=
  match e with
  | ValueError | KeyError | UnpicklingError => true
  | _ => false
  end.

(** The body of the [try] for one file: [Ok None] is falling through to the
    next iteration ([continue], or no branch returning), [Ok (Some r)] is
    [return r], [Raise e] is an exception raised inside the [try]. *)
Definition try_entry `{Pandas} (e : DirEntry) (ticker price_col : string)
  (start_date end_date : Timestamp) : result (option LoadResult) :=
  let name_parts := py_split "_" (path_stem (e_name e)) in
  if (List.length name_parts <? 4)%nat then Ok None
  else
    let cached_ticker := nth 0 name_parts EmptyString in
    let cached_col := nth 1 name_parts EmptyString in
    let cached_start_str := nth 2 name_parts EmptyString in
    let cached_end_str := nth 3 name_parts EmptyString in
    if negb (String.eqb cached_ticker ticker)
       || negb (String.eqb cached_col price_col) then Ok None
    else
      rbind (parse_cached cached_start_str) (fun cached_start =>
      rbind (parse_cached cached_end_str) (fun cached_end =>
      rbind (check_date_overlap_parsed cached_start cached_end start_date end_date)
        (fun '(status, gap_start, gap_end) =>
      if negb (String.eqb status "miss") then
        rbind (read_pickle e) (fun data =>
        rbind (match d_prices data with
               | Some l => Ok l
               | None => Raise KeyError
               end) (fun prices_list =>
        let dates_list := d_dates data in
        let df := DataFrame_of_column price_col prices_list in
        rbind (match dates_list with
               | Some ds => df_set_index df ds
               | None =>
                   rbind (bdate_range_from cached_start (df_len df))
                     (df_set_index df)
               end) (fun df =>
        if String.eqb status "exact" then
          Ok (Some (Some df, "exact", None))
        else if String.eqb status "contains" then
          Ok (Some (Some df, "contains", None))
        else if py_startswith status "overlap" then
          Ok (Some (Some df, status, Some (gap_start, gap_end)))
        else Ok None)))
      else Ok None))).

(** The [for file_path in self.cache_dir.iterdir()] loop. *)
Fixpoint load_loop `{Pandas} (es : list DirEntry) (ticker price_col : string)
  (start_date end_date : Timestamp) : M LoadResult :=
  match es with
  | [] => ret (None, "miss", None)
  | e :: es' =>
      if negb (e_is_file e) || negb (String.eqb (path_suffix (e_name e)) ".pkl")
      then load_loop es' ticker price_col start_date end_date
      else
        match try_entry e ticker price_col start_date end_date with
        | Ok (Some r) => ret r
        | Ok None => load_loop es' ticker price_col start_date end_date
        | Raise ex =>
            if caught ex then
              run logger (LogWarning (e_name e) ex);
              load_loop es' ticker price_col start_date end_date
            else raise ex
        end
  end.

Definition _load_from_cache `{Pandas} (ticker price_col : string)
  (start_date end_date : Timestamp) : M LoadResult :=
  fun w =>
    match cache_dir w with
    | None => (Ok (None, "miss", None), w)
    | Some es => load_loop es ticker price_col start_date end_date w
    end.

(** *** Entries as the lookup sees them

    The descriptions below are in terms of the stored data, not of the
    lookup code: what the parts of a file name are, when an entry is
    damaged and in which way, and when it is a sound entry that overlaps
    the request. *)

Definition name_parts (e : DirEntry) : list string :=
  py_split "_" (path_stem (e_name e)).

Definition part (i : nat) (e : DirEntry) : string := nth i (name_parts e) EmptyString.

(** A regular file with the extension the lookup reads. *)
Definition pkl_file (e : DirEntry) : Prop :=
  e_is_file e = true /\ path_suffix (e_name e) = ".pkl".

(** The file name has its four parts and names this ticker and column. *)
Definition key_matches (e : DirEntry) (ticker price_col : string) : Prop :=
  (4 <= List.length (name_parts e))%nat /\
  part 0 e = ticker /\ part 1 e = price_col.

(** The two dates of the file name parse to timestamps, and the call of
    the classifier on the interval they give and the request returns
    something other than a miss. *)
Definition overlaps `{Pandas} (e : DirEntry) (start_date end_date : Timestamp)
  (r : OverlapResult) : Prop :=
  exists cs ce,
    to_datetime (part 2 e) = Some cs /\ to_datetime (part 3 e) = Some ce /\
    check_date_overlap_call cs ce start_date end_date = Ok r /\
    status_of r <> "miss".


(** A sound entry that overlaps the request, and the answer it stands
    for: the stored prices under the requested column, indexed by the
    stored dates; the status; the gap for the two overlap statuses.  The
    declared ['n_prices'] plays no part. *)
Inductive sound `{Pandas} (ticker price_col : string)
  (start_date end_date : Timestamp) (e : DirEntry) : LoadResult -> Prop :=
| sound_entry r data ps ds :
    key_matches e ticker price_col ->
    overlaps e start_date end_date r ->
    e_content e = Pickled data ->
    d_prices data = Some ps -> d_dates data = Some ds ->
    List.length ds = List.length ps ->
    sound ticker price_col start_date end_date e
      (Some {| df_index := DatetimeIndex ds; df_columns := [(price_col, ps)] |},
       status_of r,
       if String.eqb (status_of r) "exact" || String.eqb (status_of r) "contains"
       then None else Some (gap_start_of r, gap_end_of r)).



Definition add_log (rs : list LogRecord) (w : World) : World :=
  {| cache_dir := cache_dir w; remote := remote w; fetches := fetches w;
     log := List.app (log w) rs; stdout := stdout w; clock := clock w |}.

(** ** src/pyvest/src/pyvest/dataloader.py *)

Module PkgLoader.

(** Lines 38-50.  The docstring gives the format
    [{ticker}_{price_col}_{start}_{end}.pkl]; the name built has no
    extension.  The path is the name under the cache directory. *)
Definition _get_cache_path (ticker price_col : string) (dates : string * string)
  : string :=
  let file_name :=
    (ticker ++ "_" ++ price_col ++ "_" ++ fst dates ++ "_" ++ snd dates)%string in
  file_name.

(** Lines 188-213. *)
Definition _save_to_cache (cache_path : string) (prices : list price)
  (price_col : string) (dates : list Timestamp) (ticker start end_ : string)
  : M unit :=
  do fetched_at <- now_isoformat;
  let data :=
    {| d_ticker := ticker; d_start := start; d_end := end_;
       d_fetched_at := fetched_at;
       d_n_prices := Z.of_nat (List.length prices);
       d_prices := Some prices; d_dates := Some dates;
       d_price_col := Some price_col |} in
  run write_pickle cache_path data;
  logger (LogDebug cache_path).

(** Lines 215-241.  The cache is neither read nor written. *)
Definition fetch_single_ticker `{Pandas} (ticker price_col : string)
  (dates : string * string) : M (option PriceSeries) :=
  do start_date <- lift (or_ValueError (Timestamp_parse (fst dates)));
  do end_date <- lift (or_ValueError (Timestamp_parse (snd dates)));
  do df <- history ticker start_date end_date;
  if df_empty df then
    run print "Dataframe vide pour {ticker}";
    ret None
  else if negb (df_has_column df price_col) then
    run print (price_col ++ " n'est pas dans le Dataframe du ticker " ++ ticker)%string;
    raise KeyError
  else
    do prices <- lift (df_loc_column df price_col);
    let dates_list := df_index df in
    if series_empty prices then
      run print ("colonne " ++ price_col ++ " est vide pour le ticker " ++ ticker)%string;
      ret None
    else ret (Some {| values := prices; name := price_col |}).

End PkgLoader.

(** The outcome of a call is a function of the remote data alone. *)
Definition single_outcome `{Pandas}
  (rem : string -> Timestamp -> Timestamp -> result DataFrame)
  (ticker price_col : string) (dates : string * string)
  : result (option PriceSeries) :=
  match Timestamp_parse (fst dates), Timestamp_parse (snd dates) with
  | Some s, Some e =>
      match rem ticker s e with
      | Ok df =>
          if df_empty df then Ok None
          else if negb (df_has_column df price_col) then Raise KeyError
          else match df_loc_column df price_col with
               | Ok pr =>
                   if series_empty pr then Ok None
                   else Ok (Some {| values := pr; name := price_col |})
               | Raise ex => Raise ex
               end
      | Raise ex => Raise ex
      end
  | _, _ => Raise ValueError
  end.


(** ** src/pyvest/src/dataloader.py *)

(** Lines 253-270: the loop of [fetch_multiple_tickers].  The method calls
    [self.fetch_single_ticker], whichever the object has; the loop takes it
    as an argument.  There is no [try] around the call. *)
Fixpoint fetch_multiple_loop (fetch_single_ticker : string -> M (option PriceSeries))
  (tickers : list string) (results : gmap string PriceSeries)
  : M (gmap string PriceSeries) :=
  match tickers with
  | [] => ret results
  | ticker :: rest =>
      do ps <- fetch_single_ticker ticker;
      match ps with
      | Some p => fetch_multiple_loop fetch_single_ticker rest (<[ticker := p]> results)
      | None => fetch_multiple_loop fetch_single_ticker rest results
      end
  end.

Definition fetch_multiple_tickers_with
  (fetch_single_ticker : string -> string -> string * string -> M (option PriceSeries))
  (tickers : list string) (price_col : string) (dates : string * string)
  : M (gmap string PriceSeries) :=
  fetch_multiple_loop (fun ticker => fetch_single_ticker ticker price_col dates)
    tickers ∅.

Module SrcLoader.

(** Lines 37-48. *)
Definition _get_cache_path (ticker price_col : string) (dates : string * string)
  : string :=
  (ticker ++ "_" ++ price_col ++ "_" ++ fst dates ++ "_" ++ snd dates ++ ".pkl")%string.

(** Lines 186-209. *)
Definition _save_to_cache (cache_path : string) (prices : list price)
  (dates : list Timestamp) (ticker start end_ : string) : M unit :=
  do fetched_at <- now_isoformat;
  let data :=
    {| d_ticker := ticker; d_start := start; d_end := end_;
       d_fetched_at := fetched_at;
       d_n_prices := Z.of_nat (List.length prices);
       d_prices := Some prices; d_dates := Some dates;
       d_price_col := None |} in
  run write_pickle cache_path data;
  logger (LogDebug cache_path).

(** Lines 211-251: a docstring, comments and [pass]. *)
Definition fetch_single_ticker (ticker price_col : string)
  (dates : string * string) : M (option PriceSeries) :=
  ret None.

(** Lines 253-270. *)
Definition fetch_multiple_tickers (tickers : list string) (price_col : string)
  (dates : string * string) : M (gmap string PriceSeries) :=
  fetch_multiple_tickers_with fetch_single_ticker tickers price_col dates.

End SrcLoader.

(** ** src/pyvest/src/pyvest/asset.py *)

Module AssetModel.

(** [CurrencyEnum] comes from pyvest/constant.py, which is not among the
    sources; the constructor only stores it, so it is a type parameter. *)
Record Asset (CurrencyEnum : Type) : Type := {
  ticker : string;
  prices : PriceSeries;
  sector : option string;
  currency : CurrencyEnum
}.

Arguments ticker {CurrencyEnum} a.
Arguments prices {CurrencyEnum} a.
Arguments sector {CurrencyEnum} a.
Arguments currency {CurrencyEnum} a.

(** [not s] for a string. *)
Definition py_not (s : string) : bool :=
  match s with
  | EmptyString => true
  | String _ _ => false
  end.

(** Lines 28-45, [Asset.__init__]. *)
Definition __init__ {CurrencyEnum : Type} (ticker : string)
  (prices : PriceSeries) (sector : option string) (currency : CurrencyEnum)
  : result (Asset CurrencyEnum) :=
  if py_not ticker || py_not (py_strip ticker) then Raise ValueError
  else if (PriceSeries_len prices =? 0)%nat then Raise ValueError
  else
    Ok {| ticker := py_upper ticker; prices := prices;
          sector := sector; currency := currency |}.



End AssetModel.

(** ** An instance of the pandas interface on ISO dates

    [YYYY-MM-DD] strings are parsed to midnight of that civil date; the
    empty string and [NaT] are NaT for [pd.to_datetime]; every other
    string is refused.  The examples and the concrete runs below use
    this instance. *)

Definition digit_of (c : ascii) : option Z :=
  let n := Z.of_nat (nat_of_ascii c) in
  if (48 <=? n) && (n <=? 57) then Some (n - 48) else None.

Definition is_leap (y : Z) : bool :=
  ((y mod 4 =? 0) && negb (y mod 100 =? 0)) || (y mod 400 =? 0).

Definition days_in_month (y m : Z) : Z :=
  if m =? 2 then (if is_leap y then 29 else 28)
  else if (m =? 4) || (m =? 6) || (m =? 9) || (m =? 11) then 30
  else 31.

(** Days since 1970-01-01 of a civil date (proleptic Gregorian). *)
Definition days_from_civil (y m d : Z) : Z :=
  let y' := if m <=? 2 then y - 1 else y in
  let era := y' / 400 in
  let yoe := y' - era * 400 in
  let mp := if m >? 2 then m - 3 else m + 9 in
  let doy := (153 * mp + 2) / 5 + d - 1 in
  let doe := yoe * 365 + yoe / 4 - yoe / 100 + doy in
  era * 146097 + doe - 719468.

Definition parse_iso_date (s : string) : option Timestamp :=
  match list_ascii_of_string s with
  | [y1; y2; y3; y4; h1; m1; m2; h2; d1; d2] =>
      match digit_of y1, digit_of y2, digit_of y3, digit_of y4,
            digit_of m1, digit_of m2, digit_of d1, digit_of d2 with
      | Some a, Some b, Some c, Some d, Some e, Some f, Some g, Some h =>
          let y := 1000 * a + 100 * b + 10 * c + d in
          let m := 10 * e + f in
          let dd := 10 * g + h in
          if Ascii.eqb h1 "-" && Ascii.eqb h2 "-"
             && (1 <=? m) && (m <=? 12) && (1 <=? dd)
             && (dd <=? days_in_month y m)
          then Some (Timedelta_days (days_from_civil y m dd))
          else None
      | _, _, _, _, _, _, _, _ => None
      end
  | _ => None
  end.

(** Monday is 0; 1970-01-01 was a Thursday. *)
Definition weekday (day : Z) : Z := (day + 3) mod 7.

Definition roll_forward (day : Z) : Z :=
  if weekday day =? 5 then day + 2
  else if weekday day =? 6 then day + 1
  else day.

Fixpoint business_days (periods : nat) (day : Z) : list Timestamp :=
  match periods with
  | O => []
  | S k =>
      let d := roll_forward day in
      Timedelta_days d :: business_days k (d + 1)
  end.

#[export] Instance iso_pandas : Pandas := {|
  Timestamp_parse := parse_iso_date;
  to_datetime := parse_iso_date;
  to_datetime_NaT := fun s => String.eqb s "" || String.eqb s "NaT";
  bdate_range := fun start periods => business_days periods (start / one_day)
|}.

(** A remote source that knows one symbol, AAPL, with two trading days,
    serves a frame without a Close column for NOCLOSE, and has nothing for
    any other symbol. *)
Definition demo_remote (ticker : string) (start end_ : Timestamp) : result DataFrame :=
  if String.eqb ticker "AAPL" then
    Ok {| df_index := DatetimeIndex [Timedelta_days 19724; Timedelta_days 19725];
          df_columns := [("Open", [185 # 1; 184 # 1]); ("Close", [186 # 1; 183 # 1])] |}
  else if String.eqb ticker "NOCLOSE" then
    Ok {| df_index := DatetimeIndex [Timedelta_days 19724];
          df_columns := [("Open", [10 # 1])] |}
  else
    Ok {| df_index := DatetimeIndex []; df_columns := [] |}.

Definition empty_world : World :=
  {| cache_dir := Some []; remote := demo_remote; fetches := []; log := [];
     stdout := []; clock := "2024-06-02T09:00:00" |}.

Definition world_with (es : list DirEntry) : World := set_cache_dir (Some es) empty_world.

Definition payload (n : Z) (ps : list price) (ds : list Timestamp) : CacheData :=
  {| d_ticker := "AAPL"; d_start := "2024-01-01"; d_end := "2024-03-01";
     d_fetched_at := "2024-06-01T12:00:00"; d_n_prices := n;
     d_prices := Some ps; d_dates := Some ds; d_price_col := Some "Close" |}.

Definition file (nm : string) (c : FileContent) : DirEntry :=
  {| e_name := nm; e_is_file := true; e_content := c |}.

(** Entries for the concrete runs: a sound entry for AAPL/Close over
    2024-01-01..2024-03-01; the same entry declaring 99 prices; a file
    whose name is cut short; one with an impossible month; one whose
    pickle is damaged; one that is empty (pickle.load raises EOFError). *)
Definition jan1 : Timestamp := Timedelta_days 19723.
Definition mar1 : Timestamp := Timedelta_days 19783.

Definition two_prices : list price := [186 # 1; 183 # 1].
Definition two_dates : list Timestamp := [Timedelta_days 19724; Timedelta_days 19725].

Definition sound_entry_jan_mar : DirEntry :=
  file "AAPL_Close_2024-01-01_2024-03-01.pkl" (Pickled (payload 2 two_prices two_dates)).

Definition miscounted_entry : DirEntry :=
  file "AAPL_Close_2024-01-01_2024-03-01.pkl" (Pickled (payload 99 two_prices two_dates)).




Definition empty_file_entry : DirEntry :=
  file "AAPL_Close_2024-01-01_2024-02-01.pkl" (Broken EOFError).

Definition two_price_frame : DataFrame :=
  {| df_index := DatetimeIndex two_dates; df_columns := [("Close", two_prices)] |}.


(** ** Further notions used by the properties of Part III *)

(** Time reversal swaps the two partial overlaps. *)
Definition mirror_status (st : string) : string :=
  if String.eqb st "overlap_after" then "overlap_before"
  else if String.eqb st "overlap_before" then "overlap_after"
  else st.

(** [lo <= d <= hi]. *)
Definition within (lo hi d : Timestamp) : Prop := lo <= d /\ d <= hi.

(** [DataLoader.__init__], lines 33-36 of the package copy and 32-35 of
    the other: [mkdir(exist_ok=True)] creates the cache directory when it
    is missing and leaves an existing one alone.  (A regular file in the
    place of the directory is outside what [World] describes.) *)
Definition DataLoader_init : M unit := fun w =>
  match cache_dir w with
  | None => (Ok tt, set_cache_dir (Some []) w)
  | Some _ => (Ok tt, w)
  end.

(** The entries the lookup opens the body of the loop for. *)
Definition is_pkl_file (e : DirEntry) : bool :=
  e_is_file e && String.eqb (path_suffix (e_name e)) ".pkl".

(** A frame as the lookup hands it out: one column, named as requested,
    under a datetime index of the same length. *)
Definition single_column_frame (price_col : string) (df : DataFrame) : Prop :=
  exists ds ps,
    df = {| df_index := DatetimeIndex ds; df_columns := [(price_col, ps)] |} /\
    List.length ds = List.length ps.

(** What a lookup result looks like. *)
Definition well_shaped (price_col : string) (r : LoadResult) : Prop :=
  let '(df, st, gap) := r in
  In st categories /\
  (st = "miss" <-> df = None) /\
  (forall d, df = Some d -> single_column_frame price_col d) /\
  (gap <> None <-> (st = "overlap_after" \/ st = "overlap_before")).

(** A payload stored for BRK_B under the name the other copy derives for
    it. *)
Definition brk_b_entry : DirEntry :=
  file (SrcLoader._get_cache_path "BRK_B" "Close" ("2024-01-01", "2024-03-01"))
       (Pickled (payload 2 two_prices two_dates)).

(** A directory entry that is a sub-directory, and a stray text file. *)
Definition subdirectory : DirEntry :=
  {| e_name := "AAPL_Close_2024-01-01_2024-03-01.pkl"; e_is_file := false;
     e_content := Broken OSError |}.

Definition readme_file : DirEntry := file "README.txt" (Broken EOFError).

(** The payloads the two copies of [_save_to_cache] write at clock [now]. *)
Definition src_payload (ps : list price) (ds : list Timestamp)
  (ticker start end_ now : string) : CacheData :=
  {| d_ticker := ticker; d_start := start; d_end := end_; d_fetched_at := now;
     d_n_prices := Z.of_nat (List.length ps);
     d_prices := Some ps; d_dates := Some ds; d_price_col := None |}.

Definition pkg_payload (ps : list price) (price_col : string) (ds : list Timestamp)
  (ticker start end_ now : string) : CacheData :=
  {| d_ticker := ticker; d_start := start; d_end := end_; d_fetched_at := now;
     d_n_prices := Z.of_nat (List.length ps);
     d_prices := Some ps; d_dates := Some ds; d_price_col := Some price_col |}.

(** The directory after a successful write of [data] under [nm], seen
    from the directory [es] before it: the name now holds the payload,
    every other name holds what it held, and the number of entries grew
    by one exactly when the name was new. *)
Definition written (nm : string) (data : CacheData) (es : list DirEntry)
  (w' : World) : Prop :=
  exists es',
    cache_dir w' = Some es' /\
    find_entry nm es' = Some (file nm (Pickled data)) /\
    (forall nm', nm' <> nm -> find_entry nm' es' = find_entry nm' es) /\
    List.length es'
    = match find_entry nm es with
      | Some _ => List.length es
      | None => S (List.length es)
      end.

(** The session of a fresh loader of the other copy: construct, save a
    series under the derived path, look the same interval up. *)
Definition src_session `{Pandas} (t c d0 d1 : string) (ps : list price)
  (ds : list Timestamp) (s e : Timestamp) : M LoadResult :=
  run DataLoader_init;
  run SrcLoader._save_to_cache (SrcLoader._get_cache_path t c (d0, d1))
        ps ds t d0 d1;
  _load_from_cache t c s e.

(** A series of one price, for the runs of the Asset constructor. *)
Definition one_price_series : PriceSeries :=
  {| values := {| s_index := RangeIndex 1; s_values := [186 # 1]; s_name := "Close" |};
     name := "Close" |}.

(** Time reversal of what a call of the classifier gives. *)
Definition mirror_result (r : result OverlapResult) : result OverlapResult :=
  match r with
  | Ok r => Ok (mirror_status (status_of r),
              option_map Z.opp (gap_end_of r), option_map Z.opp (gap_start_of r))
  | Raise ex => Raise ex
  end.

(** A file whose start date is missing from its name, and an entry stored
    under the lower-case spelling of the symbol. *)
Definition no_start_entry : DirEntry :=
  file "AAPL_Close__2024-03-01.pkl" (Pickled (payload 2 two_prices two_dates)).

Definition lower_case_entry : DirEntry :=
  file "aapl_Close_2024-01-01_2024-03-01.pkl" (Pickled (payload 1 [1 # 1] [jan1])).

(** The last calendar date of the nanosecond range, 2262-04-11, and a
    date past it, 2262-04-20. *)
Definition apr11_2262 : Timestamp := Timedelta_days 106751.
Definition apr20_2262 : Timestamp := Timedelta_days 106760.
Definition apr01_2262 : Timestamp := Timedelta_days 106741.

(** * Part II: properties *)

(** ** Proofs about the classifier *)

(** One case per [return] of the classifier: the guards that lead to it and
    the triple returned. *)
Lemma check_date_overlap_cases cs ce rs re :
  let r := _check_date_overlap cs ce rs re in
  (g_disjoint cs ce rs re /\ r = ("miss", None, None)) \/
  (~ g_disjoint cs ce rs re /\ g_equal cs ce rs re /\ r = ("exact", None, None)) \/
  (~ g_disjoint cs ce rs re /\ ~ g_equal cs ce rs re /\ g_contains cs ce rs re /\
   r = ("contains", None, None)) \/
  (~ g_disjoint cs ce rs re /\ ~ g_equal cs ce rs re /\ ~ g_contains cs ce rs re /\
   g_after cs ce rs re /\
   r = ("overlap_after", Some (ce + Timedelta_days 1), Some re)) \/
  (~ g_disjoint cs ce rs re /\ ~ g_equal cs ce rs re /\ ~ g_contains cs ce rs re /\
   ~ g_after cs ce rs re /\ g_before cs ce rs re /\
   r = ("overlap_before", Some rs, Some (cs - Timedelta_days 1))) \/
  (~ g_disjoint cs ce rs re /\ ~ g_equal cs ce rs re /\ ~ g_contains cs ce rs re /\
   ~ g_after cs ce rs re /\ ~ g_before cs ce rs re /\ r = ("miss", None, None)).
Proof.
  unfold _check_date_overlap, g_disjoint, g_equal, g_contains, g_after, g_before.
  cbv zeta.
  destruct ((ce <? rs) || (cs >? re)) eqn:E1; [left; split; [lia | reflexivity] |].
  destruct ((cs =? rs) && (ce =? re)) eqn:E2;
    [right; left; repeat split; solve [lia | reflexivity] |].
  destruct ((cs <=? rs) && (ce >=? re)) eqn:E3;
    [do 2 right; left; repeat split; solve [lia | reflexivity] |].
  destruct ((cs <=? rs) && (ce <? re)) eqn:E4;
    [do 3 right; left; repeat split; solve [lia | reflexivity] |].
  destruct ((cs >? rs) && (ce >=? re)) eqn:E5;
    [do 4 right; left; repeat split; solve [lia | reflexivity] |].
  do 5 right; repeat split; solve [lia | reflexivity].
Qed.





(** ** The gap *)

Lemma is_date_multiple t : is_date t -> exists k, t = 86400000000000 * k.
Proof.
  unfold is_date, one_day, Timedelta_days. intros H.
  exists (t / 86400000000000).
  pose proof (Z.div_mod t 86400000000000 ltac:(lia)) as E.
  change (1 * 86400000000000) with 86400000000000 in H. lia.
Qed.

Lemma next_date_le a b : is_date a -> is_date b -> a < b -> a + one_day <= b.
Proof.
  intros [ka ->]%is_date_multiple [kb ->]%is_date_multiple Hlt.
  unfold one_day, Timedelta_days. lia.
Qed.

Lemma in_ns_range_b_true t : in_ns_range t -> in_ns_range_b t = true.
Proof. unfold in_ns_range, in_ns_range_b. lia. Qed.

(** What a call of the classifier returns is the classification. *)
Lemma check_date_overlap_call_returns cs ce rs re r :
  check_date_overlap_call cs ce rs re = Ok r -> r = _check_date_overlap cs ce rs re.
Proof.
  unfold check_date_overlap_call. cbv zeta.
  destruct (representable _); [intros [= <-]; reflexivity | discriminate].
Qed.

(** For calendar dates of the nanosecond range the sums of lines 82 and 89
    stay in the range: the call raises nothing. *)
Lemma check_date_overlap_call_dates cs ce rs re :
  date_interval cs ce -> date_interval rs re ->
  in_ns_range cs -> in_ns_range ce -> in_ns_range rs -> in_ns_range re ->
  check_date_overlap_call cs ce rs re = Ok (_check_date_overlap cs ce rs re).
Proof.
  intros (Dcs & Dce & Hc) (Drs & Dre & Hr) Rcs Rce Rrs Rre.
  pose proof (next_date_le ce re Dce Dre) as Hafter.
  pose proof (next_date_le rs cs Drs Dcs) as Hbefore.
  unfold check_date_overlap_call. cbv zeta.
  replace (representable (_check_date_overlap cs ce rs re)) with true;
    [reflexivity |].
  symmetry.
  destruct (check_date_overlap_cases cs ce rs re)
    as [(? & E) | [(? & ? & E) | [(? & ? & ? & E) | [(? & ? & ? & Ga & E)
       | [(? & ? & ? & ? & Gb & E) | (? & ? & ? & ? & ? & E)]]]]];
    cbv zeta in E; rewrite E; unfold representable;
    cbn [gap_start_of gap_end_of fst snd bound_representable andb];
    try reflexivity;
    apply andb_true_iff; split; apply in_ns_range_b_true;
    unfold in_ns_range, ns_min, ns_max, g_after, g_before, one_day, Timedelta_days in *;
    lia.
Qed.

(** C2.  For valid calendar-date intervals within the nanosecond range of
    [pd.Timestamp], the call returns the classification (no sum leaves the
    range), and: on "overlap_after" the gap is
    [cached_end + 1 day, req_end], on "overlap_before" it is
    [req_start, cached_start - 1 day], in both cases with start <= end;
    on "miss", "exact" and "contains" both gap bounds are None. *)
Theorem check_date_overlap_gap cs ce rs re :
  date_interval cs ce -> date_interval rs re ->
  in_ns_range cs -> in_ns_range ce -> in_ns_range rs -> in_ns_range re ->
  let r := _check_date_overlap cs ce rs re in
  check_date_overlap_call cs ce rs re = Ok r /\
  (status_of r = "overlap_after" ->
   gap_start_of r = Some (ce + Timedelta_days 1) /\ gap_end_of r = Some re /\
   ce + Timedelta_days 1 <= re) /\
  (status_of r = "overlap_before" ->
   gap_start_of r = Some rs /\ gap_end_of r = Some (cs - Timedelta_days 1) /\
   rs <= cs - Timedelta_days 1) /\
  (In (status_of r) ["miss"; "exact"; "contains"] ->
   gap_start_of r = None /\ gap_end_of r = None).
Proof.
  intros Dc Dr Rcs Rce Rrs Rre r. subst r.
  split; [apply check_date_overlap_call_dates; assumption |].
  destruct Dc as (Dcs & Dce & Hc), Dr as (Drs & Dre & Hr).
  pose proof (next_date_le ce re Dce Dre) as Hafter.
  pose proof (next_date_le rs cs Drs Dcs) as Hbefore.
  change (Timedelta_days 1) with one_day.
  destruct (check_date_overlap_cases cs ce rs re)
    as [(? & ->) | [(? & ? & ->) | [(? & ? & ? & ->) | [(? & ? & ? & Ga & ->)
       | [(? & ? & ? & ? & Gb & ->) | (? & ? & ? & ? & ? & ->)]]]]];
    cbn [status_of gap_start_of gap_end_of fst snd In];
    (split; [| split]); intros Hst;
    try discriminate Hst;
    try (split; reflexivity);
    try (exfalso; destruct Hst as [Hst | [Hst | [Hst | []]]]; discriminate Hst).
  - unfold g_after in Ga. repeat split. apply Hafter. lia.
  - unfold g_before in Gb. repeat split. specialize (Hbefore ltac:(lia)). lia.
Qed.

Lemma check_date_overlap_gap_witness :
  let cs := Timedelta_days 19723 in   (* 2024-01-01 *)
  let ce := Timedelta_days 19783 in   (* 2024-03-01 *)
  let re := Timedelta_days 19875 in   (* 2024-06-01 *)
  check_date_overlap_call cs ce cs re
  = Ok ("overlap_after", Some (Timedelta_days 19784), Some re) /\
  ce + Timedelta_days 1 <= re.
Proof.
  assert (D1 : date_interval (Timedelta_days 19723) (Timedelta_days 19783))
    by (unfold date_interval, is_date; repeat split; [reflexivity .. | discriminate]).
  assert (D2 : date_interval (Timedelta_days 19723) (Timedelta_days 19875))
    by (unfold date_interval, is_date; repeat split; [reflexivity .. | discriminate]).
  assert (R1 : in_ns_range (Timedelta_days 19723)) by (split; discriminate).
  assert (R2 : in_ns_range (Timedelta_days 19783)) by (split; discriminate).
  assert (R3 : in_ns_range (Timedelta_days 19875)) by (split; discriminate).
  pose proof (check_date_overlap_gap _ _ _ _ D1 D2 R1 R2 R1 R3) as Hgap.
  cbv zeta in Hgap. destruct Hgap as (Hcall & Hafter & _).
  split; [exact Hcall | exact (proj2 (proj2 (Hafter eq_refl)))].
Defined.

(** The scenarios of the specification, through the ISO parser. *)
Example scenario_C :
  match parse_iso_date "2024-01-01", parse_iso_date "2024-03-01",
        parse_iso_date "2024-06-01", parse_iso_date "2024-03-02" with
  | Some cs, Some ce, Some re, Some gs =>
      _check_date_overlap cs ce cs re = ("overlap_after", Some gs, Some re)
  | _, _, _, _ => False
  end.
Proof. reflexivity. Qed.

Example scenario_D :
  match parse_iso_date "2024-03-01", parse_iso_date "2024-06-01",
        parse_iso_date "2024-01-01", parse_iso_date "2024-02-29" with
  | Some cs, Some ce, Some rs, Some ge =>
      _check_date_overlap cs ce rs ce = ("overlap_before", Some rs, Some ge)
  | _, _, _, _ => False
  end.
Proof. reflexivity. Qed.

(** Without calendar-date granularity the order of the two bounds is lost:
    a request that ends at noon of the cached end day gets a gap that
    starts after it ends. *)
Example gap_needs_dates :
  let ce := Timedelta_days 10 in
  let re := Timedelta_days 10 + 43200000000000 in
  _check_date_overlap 0 ce 0 re = ("overlap_after", Some (Timedelta_days 11), Some re)
  /\ re < Timedelta_days 11.
Proof. split; [reflexivity | reflexivity]. Qed.

(** Past the nanosecond range the call raises: a cache that ends on
    2262-04-11, the last date of the range, against a request to
    2262-04-20. *)
Example gap_out_of_bounds :
  date_interval apr01_2262 apr11_2262 /\ date_interval apr01_2262 apr20_2262 /\
  in_ns_range apr11_2262 /\ ~ in_ns_range apr20_2262 /\
  check_date_overlap_call apr01_2262 apr11_2262 apr01_2262 apr20_2262
  = Raise ValueError.
Proof.
  unfold date_interval, is_date, in_ns_range.
  repeat split; try reflexivity; try discriminate.
  intros [_ Hle]. apply Hle. reflexivity.
Qed.

Example iso_epoch : parse_iso_date "1970-01-01" = Some 0.
Proof. reflexivity. Qed.

Example iso_day_number : parse_iso_date "2024-01-02" = Some (Timedelta_days 19724).
Proof. reflexivity. Qed.

Example iso_refuses :
  parse_iso_date "2024-02-30" = None /\ parse_iso_date "garbage" = None.
Proof. split; reflexivity. Qed.

(** ** The single-ticker fetch of the package copy *)

Ltac unfold_M :=
  unfold bind, lift, ret, raise, history, print, logger, now_isoformat in *;
  cbn [fst snd cache_dir remote fetches log stdout clock] in *.

(** What a call does to the world: the cache directory, the logger, the
    clock and the remote data are untouched; when both dates parse, exactly
    one call to the remote source is recorded. *)
Lemma fetch_single_ticker_world `{Pandas} ticker price_col dates w :
  let w' := snd (PkgLoader.fetch_single_ticker ticker price_col dates w) in
  cache_dir w' = cache_dir w /\ remote w' = remote w /\ log w' = log w /\
  clock w' = clock w /\
  (forall s e,
     Timestamp_parse (fst dates) = Some s ->
     Timestamp_parse (snd dates) = Some e ->
     fetches w' = List.app (fetches w) [(ticker, s, e)]).
Proof.
  unfold PkgLoader.fetch_single_ticker, or_ValueError. unfold_M.
  destruct (Timestamp_parse dates.1) as [s|];
    [| cbn; repeat split; intros; discriminate].
  destruct (Timestamp_parse dates.2) as [e|];
    [| cbn; repeat split; intros; discriminate].
  cbn [fst snd].
  destruct (remote w ticker s e) as [df|ex]; cbn [fst snd];
    [| repeat split; intros ? ? [= <-] [= <-]; reflexivity].
  destruct (df_empty df); cbn;
    [repeat split; intros ? ? [= <-] [= <-]; reflexivity |].
  destruct (df_has_column df price_col); cbn;
    [| repeat split; intros ? ? [= <-] [= <-]; reflexivity].
  destruct (df_loc_column df price_col) as [pr|ex]; cbn;
    [| repeat split; intros ? ? [= <-] [= <-]; reflexivity].
  destruct (series_empty pr); cbn;
    repeat split; intros ? ? [= <-] [= <-]; reflexivity.
Qed.

Lemma fetch_single_ticker_outcome `{Pandas} ticker price_col dates w :
  fst (PkgLoader.fetch_single_ticker ticker price_col dates w)
  = single_outcome (remote w) ticker price_col dates.
Proof.
  unfold PkgLoader.fetch_single_ticker, single_outcome, or_ValueError. unfold_M.
  destruct (Timestamp_parse dates.1) as [s|]; [| reflexivity].
  destruct (Timestamp_parse dates.2) as [e|]; [| reflexivity].
  cbn [fst snd].
  destruct (remote w ticker s e) as [df|ex]; [| reflexivity].
  destruct (df_empty df); [reflexivity |].
  destruct (df_has_column df price_col); cbn [negb]; [| reflexivity].
  destruct (df_loc_column df price_col) as [pr|ex]; [| reflexivity].
  destruct (series_empty pr); reflexivity.
Qed.

(** C7.  When the remote source answers with a non-empty frame that lacks
    the requested column the call raises (a KeyError); when the frame is
    empty the call returns None without raising; the two outcomes
    differ. *)
Theorem fetch_single_ticker_missing_column `{Pandas}
  ticker price_col dates w s e df :
  Timestamp_parse (fst dates) = Some s ->
  Timestamp_parse (snd dates) = Some e ->
  remote w ticker s e = Ok df ->
  (df_empty df = false -> df_has_column df price_col = false ->
   fst (PkgLoader.fetch_single_ticker ticker price_col dates w) = Raise KeyError) /\
  (df_empty df = true ->
   fst (PkgLoader.fetch_single_ticker ticker price_col dates w) = Ok None) /\
  @Raise (option PriceSeries) KeyError <> Ok None.
Proof.
  intros Hs He Hdf.
  rewrite fetch_single_ticker_outcome. unfold single_outcome.
  rewrite Hs, He, Hdf.
  split; [| split].
  - intros -> ->. reflexivity.
  - intros ->. reflexivity.
  - discriminate.
Qed.

Lemma fetch_single_ticker_missing_column_witness :
  fst (PkgLoader.fetch_single_ticker "NOCLOSE" "Close"
         ("2024-01-01", "2024-06-01") empty_world) = Raise KeyError /\
  fst (PkgLoader.fetch_single_ticker "DELISTED" "Close"
         ("2024-01-01", "2024-06-01") empty_world) = Ok None.
Proof.
  split.
  - exact (proj1 (fetch_single_ticker_missing_column
      "NOCLOSE" "Close" ("2024-01-01", "2024-06-01") empty_world
      _ _ _ eq_refl eq_refl eq_refl) eq_refl eq_refl).
  - exact (proj1 (proj2 (fetch_single_ticker_missing_column
      "DELISTED" "Close" ("2024-01-01", "2024-06-01") empty_world
      _ _ _ eq_refl eq_refl eq_refl)) eq_refl).
Defined.

(** X13.  A frame with the column and at least one row gives the series of
    that column: its values under the index of the frame, named after the
    column. *)
Lemma fetch_single_ticker_success `{Pandas} ticker price_col dates w s e df vals :
  Timestamp_parse (fst dates) = Some s ->
  Timestamp_parse (snd dates) = Some e ->
  remote w ticker s e = Ok df ->
  df_empty df = false ->
  assoc_get price_col (df_columns df) = Some vals ->
  fst (PkgLoader.fetch_single_ticker ticker price_col dates w)
  = Ok (Some {| values := {| s_index := df_index df; s_values := vals;
                             s_name := price_col |};
                name := price_col |}).
Proof.
  intros Hs He Hdf Hne Hcol.
  rewrite fetch_single_ticker_outcome. unfold single_outcome.
  rewrite Hs, He, Hdf, Hne.
  assert (Hhas : df_has_column df price_col = true).
  { unfold df_has_column. clear -Hcol.
    induction (df_columns df) as [| [k v] l IH]; [discriminate |].
    cbn in *. destruct (String.eqb price_col k); [reflexivity |].
    cbn. auto. }
  rewrite Hhas. cbn [negb]. unfold df_loc_column. rewrite Hcol.
  unfold series_empty. cbn [s_index].
  unfold df_empty in Hne. apply orb_false_iff in Hne as [Hlen _].
  unfold df_len in Hlen. rewrite Hlen. reflexivity.
Qed.

(** ** Two calls in a row

    The package copy of [fetch_single_ticker] never consults the cache and
    never writes to it: the second of two equal calls goes to the remote
    source again. *)

(** X16.  Two equal calls in a row, with dates that parse: equal results,
    two requests to the remote source, the cache directory as it was. *)
Lemma fetch_single_ticker_twice `{Pandas} ticker price_col dates w s e :
  Timestamp_parse (fst dates) = Some s ->
  Timestamp_parse (snd dates) = Some e ->
  let '(r1, r2, w2) := twice (PkgLoader.fetch_single_ticker ticker price_col dates) w in
  r1 = r2 /\
  fetches w2 = List.app (fetches w) [(ticker, s, e); (ticker, s, e)] /\
  cache_dir w2 = cache_dir w.
Proof.
  intros Hs He. unfold twice.
  pose proof (fetch_single_ticker_world ticker price_col dates w) as W1.
  pose proof (fetch_single_ticker_outcome ticker price_col dates w) as O1.
  destruct (PkgLoader.fetch_single_ticker ticker price_col dates w) as [r1 w1].
  pose proof (fetch_single_ticker_world ticker price_col dates w1) as W2.
  pose proof (fetch_single_ticker_outcome ticker price_col dates w1) as O2.
  destruct (PkgLoader.fetch_single_ticker ticker price_col dates w1) as [r2 w2].
  cbn [fst snd] in *.
  destruct W1 as (C1 & R1 & _ & _ & F1), W2 as (C2 & R2 & _ & _ & F2).
  split; [| split].
  - rewrite O1, O2, R1. reflexivity.
  - rewrite (F2 s e Hs He), (F1 s e Hs He), <- List.app_assoc. reflexivity.
  - congruence.
Qed.

(** C3 (the code against the claim).  The run of test_dataloader.py on the
    package copy, from an empty cache: both calls return the same series,
    the second call is one more request to the remote source, and nothing
    was written to the cache directory. *)
Theorem fetch_single_ticker_second_call_fetches :
  let call := PkgLoader.fetch_single_ticker "AAPL" "Close" ("2024-01-01", "2024-06-01") in
  let '(r1, w1) := call empty_world in
  let '(r2, w2) := call w1 in
  r1 = r2 /\ (exists ps, r1 = Ok (Some ps)) /\
  List.length (fetches w1) = 1%nat /\ List.length (fetches w2) = 2%nat /\
  cache_dir w2 = Some [].
Proof.
  vm_compute. repeat split; eauto.
Qed.

(** ** The other copy of the loader *)

(** C9.  In src/pyvest/src/dataloader.py [fetch_single_ticker] returns None
    for every ticker, price column and date pair, in every world: whatever
    the cache holds and whatever the remote source would serve; nothing is
    fetched, written, logged or printed. *)
Theorem src_fetch_single_ticker_returns_None ticker price_col dates w :
  SrcLoader.fetch_single_ticker ticker price_col dates w = (Ok None, w).
Proof. reflexivity. Qed.

(** ** The batch loop *)

Section BatchLoop.

Variable f : string -> M (option PriceSeries).
Variable out :
  (string -> Timestamp -> Timestamp -> result DataFrame) ->
  string -> result (option PriceSeries).
Hypothesis f_outcome : forall t w, fst (f t w) = out (remote w) t.
Hypothesis f_remote : forall t w, remote (snd (f t w)) = remote w.


(** The first call that raises ends the loop with that exception: the
    tickers after it are never processed, and no map is returned. *)
Lemma fetch_multiple_loop_raises pre :
  forall t post e (m : gmap string PriceSeries) w,
  (forall u, In u pre -> exists o, out (remote w) u = Ok o) ->
  out (remote w) t = Raise e ->
  fst (fetch_multiple_loop f (List.app pre (t :: post)) m w) = Raise e /\
  snd (fetch_multiple_loop f (List.app pre (t :: post)) m w)
  = snd (fetch_multiple_loop f (List.app pre [t]) m w).
Proof.
  induction pre as [| a pre IH]; intros t post e m w Hok Hraise.
  - cbn [List.app fetch_multiple_loop]. unfold bind.
    pose proof (f_outcome t w) as Hf.
    destruct (f t w) as [r w1]. cbn [fst] in Hf. rewrite Hraise in Hf. subst r.
    split; reflexivity.
  - destruct (Hok a (or_introl eq_refl)) as [o Ho].
    pose proof (f_outcome a w) as Hf. pose proof (f_remote a w) as Hr.
    cbn [List.app fetch_multiple_loop]. unfold bind.
    destruct (f a w) as [r w1]. cbn [fst snd] in Hf, Hr.
    rewrite Ho in Hf. subst r.
    assert (Hok1 : forall u, In u pre -> exists o, out (remote w1) u = Ok o).
    { intros u Hu. rewrite Hr. apply Hok. right. exact Hu. }
    rewrite <- Hr in Hraise.
    destruct o as [q |]; apply IH; assumption.
Qed.

End BatchLoop.

Lemma src_fetch_multiple_loop_id tickers price_col dates m w :
  fetch_multiple_loop
    (fun ticker => SrcLoader.fetch_single_ticker ticker price_col dates)
    tickers m w = (Ok m, w).
Proof.
  revert m w. induction tickers as [| t ts IH]; intros m w; [reflexivity |].
  cbn. apply IH.
Qed.

(** X15.  The batch function of src/pyvest/src/dataloader.py on its own
    [fetch_single_ticker]: the empty dict, for every list of tickers, and
    the world untouched. *)
Lemma src_fetch_multiple_tickers_empty tickers price_col dates w :
  SrcLoader.fetch_multiple_tickers tickers price_col dates w = (Ok ∅, w).
Proof. apply src_fetch_multiple_loop_id. Qed.



(** When the call for a ticker does raise, nothing in the loop catches
    it: with a [fetch_single_ticker] that can raise, such as the one of
    the package copy, the batch ends at that ticker with the exception
    (lemma [fetch_multiple_loop_raises]). *)

(** ** Strings: strip and upper *)





Lemma upper_char_idempotent c : upper_char (upper_char c) = upper_char c.
Proof. destruct c as [[] [] [] [] [] [] [] []]; reflexivity. Qed.


Lemma py_upper_idempotent s : py_upper (py_upper s) = py_upper s.
Proof.
  induction s as [| c s IH]; [reflexivity |].
  cbn. rewrite upper_char_idempotent, IH. reflexivity.
Qed.

Lemma py_upper_length s : String.length (py_upper s) = String.length s.
Proof. induction s as [| c s IH]; cbn; congruence. Qed.

(** ** The Asset constructor *)



(** ** The cache lookup, entry by entry *)

Lemma key_matches_guards e ticker price_col :
  key_matches e ticker price_col ->
  (List.length (name_parts e) <? 4)%nat = false /\
  negb (String.eqb (part 0 e) ticker) || negb (String.eqb (part 1 e) price_col)
  = false.
Proof.
  intros (Hlen & -> & ->). split.
  - apply Nat.ltb_ge. exact Hlen.
  - rewrite !String.eqb_refl. reflexivity.
Qed.

(** The statuses the classifier can return besides "miss". *)
Lemma overlap_status cs ce rs re :
  status_of (_check_date_overlap cs ce rs re) <> "miss" ->
  let r := _check_date_overlap cs ce rs re in
  r = ("exact", None, None) \/ r = ("contains", None, None) \/
  (status_of r = "overlap_after" /\ r = ("overlap_after", gap_start_of r, gap_end_of r)) \/
  (status_of r = "overlap_before" /\ r = ("overlap_before", gap_start_of r, gap_end_of r)).
Proof.
  intros Hst.
  destruct (check_date_overlap_cases cs ce rs re)
    as [(? & E) | [(? & ? & E) | [(? & ? & ? & E) | [(? & ? & ? & ? & E)
       | [(? & ? & ? & ? & ? & E) | (? & ? & ? & ? & ? & E)]]]]];
    cbv zeta in E |- *; rewrite E in Hst |- *; cbn in Hst |- *;
    try contradiction; auto.
Qed.

(** The part of [try_entry] that comes after the key check. *)
Lemma try_entry_matching `{Pandas} e ticker price_col s e' :
  key_matches e ticker price_col ->
  try_entry e ticker price_col s e'
  = rbind (parse_cached (part 2 e)) (fun cached_start =>
    rbind (parse_cached (part 3 e)) (fun cached_end =>
    rbind (check_date_overlap_parsed cached_start cached_end s e')
      (fun '(status, gap_start, gap_end) =>
    if negb (String.eqb status "miss") then
      rbind (read_pickle e) (fun data =>
      rbind (match d_prices data with
             | Some l => Ok l
             | None => Raise KeyError
             end) (fun prices_list =>
      let df := DataFrame_of_column price_col prices_list in
      rbind (match d_dates data with
             | Some ds => df_set_index df ds
             | None =>
                 rbind (bdate_range_from cached_start (df_len df))
                   (df_set_index df)
             end) (fun df =>
      if String.eqb status "exact" then
        Ok (Some (Some df, "exact", None))
      else if String.eqb status "contains" then
        Ok (Some (Some df, "contains", None))
      else if py_startswith status "overlap" then
        Ok (Some (Some df, status, Some (gap_start, gap_end)))
      else Ok None)))
    else Ok None))).
Proof.
  intros Hk. destruct (key_matches_guards e ticker price_col Hk) as [Hlen Hkey].
  unfold try_entry. fold (name_parts e).
  change (nth 0 (name_parts e) EmptyString) with (part 0 e).
  change (nth 1 (name_parts e) EmptyString) with (part 1 e).
  change (nth 2 (name_parts e) EmptyString) with (part 2 e).
  change (nth 3 (name_parts e) EmptyString) with (part 3 e).
  cbv zeta. rewrite Hlen, Hkey. reflexivity.
Qed.

Lemma parse_cached_timestamp `{Pandas} s t :
  to_datetime s = Some t -> parse_cached s = Ok (Some t).
Proof. intros Ht. unfold parse_cached. rewrite Ht. reflexivity. Qed.


(** The part of [try_entry] that comes after the classification, for an
    entry that overlaps the request. *)
Lemma try_entry_overlapping `{Pandas} e ticker price_col s e' r :
  key_matches e ticker price_col ->
  overlaps e s e' r ->
  exists cs,
  try_entry e ticker price_col s e'
  = rbind (read_pickle e) (fun data =>
    rbind (match d_prices data with
           | Some l => Ok l
           | None => Raise KeyError
           end) (fun prices_list =>
    let df := DataFrame_of_column price_col prices_list in
    rbind (match d_dates data with
           | Some ds => df_set_index df ds
           | None => df_set_index df (bdate_range cs (df_len df))
           end) (fun df =>
    Ok (Some (Some df, status_of r,
              if String.eqb (status_of r) "exact"
                 || String.eqb (status_of r) "contains"
              then None else Some (gap_start_of r, gap_end_of r)))))).
Proof.
  intros Hk (cs & ce & Hcs & Hce & Hr & Hst).
  exists cs. rewrite (try_entry_matching _ _ _ _ _ Hk).
  rewrite (parse_cached_timestamp _ _ Hcs), (parse_cached_timestamp _ _ Hce).
  cbn [rbind check_date_overlap_parsed]. rewrite Hr. cbn [rbind].
  pose proof (check_date_overlap_call_returns _ _ _ _ _ Hr) as Er. clear Hr.
  subst r. pose proof (overlap_status cs ce s e' Hst) as Hcases.
  cbv zeta in Hcases.
  destruct (_check_date_overlap cs ce s e') as [[st gs] ge].
  cbn [status_of gap_start_of gap_end_of fst snd] in *.
  rewrite (proj2 (String.eqb_neq st "miss") Hst). cbn [negb].
  destruct (read_pickle e) as [data | ex]; [| reflexivity]. cbn [rbind].
  destruct (d_prices data) as [ps |]; [| reflexivity]. cbn [rbind].
  cbv zeta. cbn [bdate_range_from rbind].
  destruct (match d_dates data with
            | Some ds => df_set_index (DataFrame_of_column price_col ps) ds
            | None => df_set_index (DataFrame_of_column price_col ps)
                        (bdate_range cs (df_len (DataFrame_of_column price_col ps)))
            end) as [df | ex]; [| reflexivity].
  cbn [rbind].
  destruct Hcases as [E | [E | [[E1 E] | [E1 E]]]]; inversion E; subst;
    reflexivity.
Qed.


(** What the body of the loop does on a sound entry. *)
Lemma try_entry_sound `{Pandas} e ticker price_col s e' res :
  sound ticker price_col s e' e res ->
  try_entry e ticker price_col s e' = Ok (Some res).
Proof.
  intros [r data ps ds Hk Ho Hc Hp Hd Hlen].
  destruct (try_entry_overlapping _ _ _ _ _ _ Hk Ho) as [cs ->].
  unfold read_pickle. rewrite Hc. cbn [rbind]. rewrite Hp, Hd. cbn [rbind].
  cbv zeta. unfold df_set_index, df_len, DataFrame_of_column.
  cbn [df_index Index_len df_columns].
  rewrite (proj2 (Nat.eqb_eq _ _) Hlen). reflexivity.
Qed.

(** ** The cache lookup, over the directory *)





Lemma load_loop_escape `{Pandas} x rest ticker price_col s e w ex :
  pkl_file x ->
  try_entry x ticker price_col s e = Raise ex -> caught ex = false ->
  load_loop (x :: rest) ticker price_col s e w = (Raise ex, w).
Proof.
  intros [Hf Hs] Ht Hc. cbn [load_loop]. rewrite Hf, Hs, Ht, Hc. reflexivity.
Qed.

Lemma load_loop_hit `{Pandas} x rest ticker price_col s e w res :
  pkl_file x ->
  try_entry x ticker price_col s e = Ok (Some res) ->
  load_loop (x :: rest) ticker price_col s e w = (Ok res, w).
Proof.
  intros [Hf Hs] Ht. cbn [load_loop]. rewrite Hf, Hs, Ht. reflexivity.
Qed.



(** Entries of other tickers are passed over in silence. *)
Lemma load_loop_other_tickers `{Pandas} ticker price_col s e es rest w :
  (forall x, In x es -> part 0 x <> ticker) ->
  load_loop (List.app es rest) ticker price_col s e w
  = load_loop rest ticker price_col s e w.
Proof.
  intros Hne. induction es as [| x es IH]; [reflexivity |].
  cbn [List.app load_loop].
  assert (IH' := IH (fun y Hy => Hne y (or_intror Hy))).
  destruct (negb (e_is_file x) || negb (String.eqb (path_suffix (e_name x)) ".pkl"));
    [exact IH' |].
  assert (Ht : try_entry x ticker price_col s e = Ok None).
  { unfold try_entry. fold (name_parts x). cbv zeta.
    destruct (List.length (name_parts x) <? 4)%nat; [reflexivity |].
    change (nth 0 (name_parts x) EmptyString) with (part 0 x).
    rewrite (proj2 (String.eqb_neq (part 0 x) ticker) (Hne x (or_introl eq_refl))).
    reflexivity. }
  rewrite Ht. exact IH'.
Qed.

(** C5 (as the code has it).  The ticker of a file name is compared with
    the requested ticker as it stands, character for character.  Entries
    whose first part is not exactly the requested string are never
    selected: a directory of such entries is a miss and logs nothing.  An
    entry whose first part is exactly the requested string is selected: a
    sound entry of the requested ticker and column that overlaps the
    request, coming after entries of other spellings or other tickers, is
    the answer. *)
Theorem load_from_cache_ticker_verbatim `{Pandas} ticker price_col s e w :
  (forall es,
     cache_dir w = Some es ->
     (forall x, In x es -> part 0 x <> ticker) ->
     _load_from_cache ticker price_col s e w = (Ok (None, "miss", None), w)) /\
  (forall pre v post res,
     cache_dir w = Some (List.app pre (v :: post)) ->
     (forall x, In x pre -> part 0 x <> ticker) ->
     pkl_file v -> sound ticker price_col s e v res ->
     part 0 v = ticker /\
     _load_from_cache ticker price_col s e w = (Ok res, w)).
Proof.
  split.
  - intros es Hdir Hne. unfold _load_from_cache. rewrite Hdir.
    rewrite <- (List.app_nil_r es).
    rewrite (load_loop_other_tickers _ _ _ _ _ _ _ Hne). reflexivity.
  - intros pre v post res Hdir Hne Hpkl Hsound. split.
    + destruct Hsound as [r data ps ds (_ & Hk & _) _ _ _ _ _]. exact Hk.
    + unfold _load_from_cache. rewrite Hdir.
      rewrite (load_loop_other_tickers _ _ _ _ _ _ _ Hne).
      apply load_loop_hit; [exact Hpkl |].
      apply try_entry_sound. exact Hsound.
Qed.

Lemma sound_entry_jan_mar_sound :
  sound "AAPL" "Close" jan1 mar1 sound_entry_jan_mar
    (Some two_price_frame, "exact", None).
Proof.
  refine (sound_entry "AAPL" "Close" jan1 mar1 sound_entry_jan_mar
            ("exact", None, None) (payload 2 two_prices two_dates)
            two_prices two_dates _ _ eq_refl eq_refl eq_refl eq_refl).
  - repeat split. vm_compute. lia.
  - exists jan1, mar1. repeat split. discriminate.
Defined.

Lemma lower_case_entry_sound :
  sound "aapl" "Close" jan1 mar1 lower_case_entry
    (Some {| df_index := DatetimeIndex [jan1]; df_columns := [("Close", [1 # 1])] |},
     "exact", None).
Proof.
  refine (sound_entry "aapl" "Close" jan1 mar1 lower_case_entry
            ("exact", None, None) (payload 1 [1 # 1] [jan1])
            [1 # 1] [jan1] _ _ eq_refl eq_refl eq_refl eq_refl).
  - repeat split. vm_compute. lia.
  - exists jan1, mar1. repeat split. discriminate.
Defined.



(** An empty cache file in front of a sound entry: the EOFError of
    [pickle.load] is not among the exceptions the lookup catches, and it
    leaves the lookup. *)
Example load_from_cache_eof_escapes :
  fst (_load_from_cache "AAPL" "Close" jan1 mar1
         (world_with [empty_file_entry; sound_entry_jan_mar]))
  = Raise EOFError.
Proof. reflexivity. Qed.

(** A file name whose start date is missing: pandas reads the empty part
    as NaT, the classifier answers "miss", and the entry is passed over
    without a warning. *)
Example load_from_cache_nat_silent :
  _load_from_cache "AAPL" "Close" jan1 mar1
    (world_with [no_start_entry; sound_entry_jan_mar])
  = (Ok (Some two_price_frame, "exact", None),
     world_with [no_start_entry; sound_entry_jan_mar]).
Proof. reflexivity. Qed.

Lemma load_from_cache_ticker_verbatim_witness :
  let w := world_with [lower_case_entry; sound_entry_jan_mar] in
  _load_from_cache "AAPL" "Close" jan1 mar1 w
  = (Ok (Some two_price_frame, "exact", None), w) /\
  _load_from_cache "aapl" "Close" jan1 mar1 w
  = (Ok (Some {| df_index := DatetimeIndex [jan1];
                 df_columns := [("Close", [1 # 1])] |}, "exact", None), w) /\
  _load_from_cache "Aapl" "Close" jan1 mar1 w = (Ok (None, "miss", None), w).
Proof.
  intros w. split; [| split].
  - refine (proj2 (proj2 (load_from_cache_ticker_verbatim "AAPL" "Close" jan1 mar1 w)
                     [lower_case_entry] sound_entry_jan_mar [] _ eq_refl _ _
                     sound_entry_jan_mar_sound)).
    + intros x [<- | []]. vm_compute. discriminate.
    + split; reflexivity.
  - refine (proj2 (proj2 (load_from_cache_ticker_verbatim "aapl" "Close" jan1 mar1 w)
                     [] lower_case_entry [sound_entry_jan_mar] _ eq_refl _ _
                     lower_case_entry_sound)).
    + intros x [].
    + split; reflexivity.
  - apply (proj1 (load_from_cache_ticker_verbatim "Aapl" "Close" jan1 mar1 w)
             [lower_case_entry; sound_entry_jan_mar] eq_refl).
    intros x [<- | [<- | []]]; vm_compute; discriminate.
Defined.

(** C5 (the claim against the code).  The entry stored under AAPL answers
    a request for "AAPL" and not a request for "aapl", although both
    spellings are the same symbol in upper case. *)
Lemma load_from_cache_case_sensitive :
  py_upper "aapl" = py_upper "AAPL" /\
  fst (_load_from_cache "AAPL" "Close" jan1 mar1 (world_with [sound_entry_jan_mar]))
  = Ok (Some two_price_frame, "exact", None) /\
  fst (_load_from_cache "aapl" "Close" jan1 mar1 (world_with [sound_entry_jan_mar]))
  = Ok (None, "miss", None).
Proof. repeat split. Qed.

(** ** Strings: split, rfind, stem and suffix *)

Lemma append_nil_l (b : string) : ("" ++ b)%string = b.
Proof. reflexivity. Qed.

Lemma append_cons x (a b : string) : (String x a ++ b)%string = String x (a ++ b).
Proof. reflexivity. Qed.

Ltac app_step := rewrite ?append_cons, ?append_nil_l; cbn.

Lemma append_assoc (a b c : string) : ((a ++ b) ++ c = a ++ (b ++ c))%string.
Proof. induction a as [| x a IH]; app_step; congruence. Qed.

Lemma length_append (a b : string) :
  String.length (a ++ b) = (String.length a + String.length b)%nat.
Proof. induction a as [| x a IH]; app_step; congruence. Qed.

Lemma py_contains_append c (a b : string) :
  py_contains c (a ++ b) = py_contains c a || py_contains c b.
Proof.
  induction a as [| x a IH]; [reflexivity |].
  app_step. rewrite IH. apply orb_assoc.
Qed.

Lemma py_split_nonempty sep s : py_split sep s <> [].
Proof.
  destruct s as [| c s]; cbn; [discriminate |].
  destruct (Ascii.eqb c sep); [discriminate |].
  destruct (py_split sep s); discriminate.
Qed.

(** A string without the separator is one part. *)
Lemma py_split_whole sep s : py_contains sep s = false -> py_split sep s = [s].
Proof.
  induction s as [| c s IH]; [reflexivity |].
  cbn. intros [Hc Hs]%orb_false_iff. rewrite Hc, (IH Hs). reflexivity.
Qed.

(** The first separator ends the first part. *)
Lemma py_split_first sep (a b : string) :
  py_contains sep a = false ->
  py_split sep (a ++ String sep b) = a :: py_split sep b.
Proof.
  induction a as [| c a IH]; app_step.
  - intros _. rewrite Ascii.eqb_refl. reflexivity.
  - intros [Hc Ha]%orb_false_iff. rewrite Hc, (IH Ha). reflexivity.
Qed.

Lemma py_rfind_absent c s : py_contains c s = false -> py_rfind c s = None.
Proof.
  induction s as [| a s IH]; [reflexivity |].
  cbn. intros [Ha Hs]%orb_false_iff. rewrite (IH Hs), Ha. reflexivity.
Qed.

(** The last occurrence, when nothing after it is the character. *)
Lemma py_rfind_last c (a b : string) :
  py_contains c b = false ->
  py_rfind c (a ++ String c b) = Some (String.length a).
Proof.
  intros Hb. induction a as [| x a IH]; app_step.
  - rewrite (py_rfind_absent c b Hb), Ascii.eqb_refl. reflexivity.
  - rewrite IH. reflexivity.
Qed.

Lemma substring_whole s : String.substring 0 (String.length s) s = s.
Proof. induction s as [| c s IH]; cbn; congruence. Qed.

Lemma substring_prefix (a b : string) :
  String.substring 0 (String.length a) (a ++ b) = a.
Proof.
  induction a as [| c a IH]; app_step; [| congruence].
  destruct b; reflexivity.
Qed.

Lemma substring_suffix (a b : string) :
  String.substring (String.length a) (String.length b) (a ++ b) = b.
Proof.
  induction a as [| c a IH]; app_step; [apply substring_whole | exact IH].
Qed.

(** A name that ends in [.pkl] after a non-empty stem. *)
Lemma path_pkl (x : string) :
  x <> EmptyString ->
  path_suffix (x ++ ".pkl") = ".pkl" /\ path_stem (x ++ ".pkl") = x.
Proof.
  intros Hx. unfold path_suffix, path_stem, path_has_suffix.
  change (x ++ ".pkl")%string with (x ++ String "." "pkl")%string.
  rewrite (py_rfind_last "." x "pkl" eq_refl).
  rewrite length_append.
  assert (Hpos : (0 < String.length x)%nat)
    by (destruct x; [contradiction | cbn; lia]).
  change (String.length (String "." "pkl")) with 4%nat.
  replace ((0 <? String.length x)%nat
           && (String.length x <? String.length x + 4 - 1)%nat)
    with true.
  2:{ symmetry. apply andb_true_iff. split; apply Nat.ltb_lt; lia. }
  split.
  - replace (String.length x + 4 - String.length x)%nat
      with (String.length (String "." "pkl")) by (cbn; lia).
    apply substring_suffix.
  - apply substring_prefix.
Qed.

(** ** Saving and looking up again *)

Lemma find_entry_found nm es x :
  find_entry nm es = Some x -> In x es /\ e_name x = nm.
Proof.
  induction es as [| y es IH]; [discriminate |].
  cbn. destruct (String.eqb (e_name y) nm) eqn:E.
  - intros [= <-]. split; [left; reflexivity | apply String.eqb_eq, E].
  - intros Hx. destruct (IH Hx). split; [right |]; assumption.
Qed.

(** The file name of the other copy, read back by the lookup. *)
Lemma src_cache_path_parts t c d0 d1 :
  py_contains "_" t = false -> py_contains "_" c = false ->
  py_contains "_" d0 = false -> py_contains "_" d1 = false ->
  let nm := SrcLoader._get_cache_path t c (d0, d1) in
  path_suffix nm = ".pkl" /\
  py_split "_" (path_stem nm) = [t; c; d0; d1].
Proof.
  intros Ht Hc H0 H1 nm. subst nm. unfold SrcLoader._get_cache_path.
  cbn [fst snd].
  set (key := (t ++ "_" ++ c ++ "_" ++ d0 ++ "_" ++ d1)%string).
  assert (Hshape :
    (t ++ "_" ++ c ++ "_" ++ d0 ++ "_" ++ d1 ++ ".pkl")%string
    = (key ++ ".pkl")%string).
  { subst key. rewrite !append_assoc. reflexivity. }
  rewrite Hshape.
  assert (Hkey : key <> EmptyString).
  { subst key. destruct t; discriminate. }
  destruct (path_pkl key Hkey) as [-> ->]. split; [reflexivity |].
  subst key.
  change ("_" ++ c ++ "_" ++ d0 ++ "_" ++ d1)%string
    with (String "_" (c ++ "_" ++ d0 ++ "_" ++ d1))%string.
  rewrite (py_split_first "_" t _ Ht).
  change ("_" ++ d0 ++ "_" ++ d1)%string with (String "_" (d0 ++ "_" ++ d1))%string.
  rewrite (py_split_first "_" c _ Hc).
  change ("_" ++ d1)%string with (String "_" d1)%string.
  rewrite (py_split_first "_" d0 _ H0).
  rewrite (py_split_whole "_" d1 H1). reflexivity.
Qed.

(** The sibling of the package copy keeps the extension, and there the
    round trip holds: from a directory that has no entry of this ticker,
    saving a series under the derived path and looking the same interval
    up gives "exact" with the saved prices at the saved dates. *)
Lemma src_roundtrip_exact `{Pandas} t c d0 d1 (ps : list price)
  (ds : list Timestamp) s e es w :
  py_contains "_" t = false -> py_contains "_" c = false ->
  py_contains "_" d0 = false -> py_contains "_" d1 = false ->
  py_contains "/" (SrcLoader._get_cache_path t c (d0, d1)) = false ->
  to_datetime d0 = Some s -> to_datetime d1 = Some e -> s <= e ->
  List.length ds = List.length ps ->
  cache_dir w = Some es ->
  (forall x, In x es -> part 0 x <> t) ->
  let nm := SrcLoader._get_cache_path t c (d0, d1) in
  let saved := SrcLoader._save_to_cache nm ps ds t d0 d1 w in
  fst saved = Ok tt /\
  fst (_load_from_cache t c s e (snd saved))
  = Ok (Some {| df_index := DatetimeIndex ds; df_columns := [(c, ps)] |},
        "exact", None).
Proof.
  intros Ht Hc H0 H1 Hslash Hs He Hle Hlen Hdir Hother nm saved.
  destruct (src_cache_path_parts t c d0 d1 Ht Hc H0 H1) as [Hsuf Hparts].
  fold nm in Hsuf, Hparts, Hslash.
  assert (Hfresh : find_entry nm es = None).
  { destruct (find_entry nm es) as [x |] eqn:F; [| reflexivity].
    destruct (find_entry_found _ _ _ F) as [Hin Hname].
    exfalso. apply (Hother x Hin).
    unfold part, name_parts. rewrite Hname, Hparts. reflexivity. }
  subst saved. unfold SrcLoader._save_to_cache, write_pickle. unfold_M.
  rewrite Hdir, Hslash, Hfresh. cbn [fst snd].
  split; [reflexivity |].
  unfold _load_from_cache. cbn [cache_dir set_cache_dir].
  rewrite (load_loop_other_tickers _ _ _ _ _ _ _ Hother).
  set (entry := {| e_name := nm; e_is_file := true; e_content := _ |}).
  assert (Hpkl : pkl_file entry) by (split; [reflexivity | exact Hsuf]).
  assert (Hsound : sound t c s e entry
            (Some {| df_index := DatetimeIndex ds; df_columns := [(c, ps)] |},
             "exact", None)).
  { assert (Hr : _check_date_overlap s e s e = ("exact", None, None)).
    { unfold _check_date_overlap.
      replace ((e <? s) || (s >? e)) with false by (symmetry; lia).
      rewrite !Z.eqb_refl. reflexivity. }
    assert (Hcall : check_date_overlap_call s e s e = Ok ("exact", None, None)).
    { unfold check_date_overlap_call. rewrite Hr. reflexivity. }
    refine (sound_entry t c s e entry ("exact", None, None) _ ps ds
              _ _ eq_refl eq_refl eq_refl Hlen).
    - unfold key_matches, part, name_parts. cbn [e_name entry].
      rewrite Hparts. repeat split. cbn. lia.
    - exists s, e. unfold part, name_parts. cbn [e_name entry].
      rewrite Hparts. cbn [nth]. repeat split; try assumption. discriminate. }
  rewrite (load_loop_hit _ _ _ _ _ _ _ _ Hpkl (try_entry_sound _ _ _ _ _ _ Hsound)).
  reflexivity.
Qed.

(** In the package copy the derived path has no extension, and the lookup
    reads only [.pkl] files: what was saved is not found. *)
Lemma pkg_roundtrip_miss `{Pandas} t c dates (ps : list price)
  (ds : list Timestamp) s e w :
  let nm := PkgLoader._get_cache_path t c dates in
  cache_dir w = Some [] ->
  py_contains "/" nm = false ->
  path_suffix nm <> ".pkl" ->
  let saved := PkgLoader._save_to_cache nm ps c ds t (fst dates) (snd dates) w in
  fst saved = Ok tt /\
  fst (_load_from_cache t c s e (snd saved)) = Ok (None, "miss", None).
Proof.
  intros nm Hdir Hslash Hsuf saved. subst saved.
  unfold PkgLoader._save_to_cache, write_pickle. unfold_M.
  rewrite Hdir, Hslash. cbn [find_entry fst snd].
  split; [reflexivity |].
  unfold _load_from_cache. cbn [cache_dir set_cache_dir List.app load_loop e_is_file e_name negb orb].
  rewrite (proj2 (String.eqb_neq _ _) Hsuf). reflexivity.
Qed.

(** C8 (the code against the claim).  The package copy, from an empty
    cache directory: the series is saved under the path derived for
    AAPL/Close/2024-01-01..2024-03-01, the file is in the directory, and
    the lookup of the same interval is a miss with no data. *)
Theorem pkg_save_then_load_misses :
  let dates := ("2024-01-01", "2024-03-01") in
  let nm := PkgLoader._get_cache_path "AAPL" "Close" dates in
  let saved :=
    PkgLoader._save_to_cache nm two_prices "Close" two_dates
      "AAPL" "2024-01-01" "2024-03-01" empty_world in
  nm = "AAPL_Close_2024-01-01_2024-03-01" /\
  fst saved = Ok tt /\
  option_map (map e_name) (cache_dir (snd saved)) = Some [nm] /\
  parse_iso_date "2024-01-01" = Some jan1 /\
  parse_iso_date "2024-03-01" = Some mar1 /\
  fst (_load_from_cache "AAPL" "Close" jan1 mar1 (snd saved))
  = Ok (None, "miss", None).
Proof. repeat split. Qed.

(** The same run on the other copy: "exact", with the saved values. *)
Lemma src_roundtrip_exact_witness :
  let nm := SrcLoader._get_cache_path "AAPL" "Close" ("2024-01-01", "2024-03-01") in
  let saved :=
    SrcLoader._save_to_cache nm two_prices two_dates
      "AAPL" "2024-01-01" "2024-03-01" empty_world in
  fst saved = Ok tt /\
  fst (_load_from_cache "AAPL" "Close" jan1 mar1 (snd saved))
  = Ok (Some two_price_frame, "exact", None).
Proof.
  assert (Hle : jan1 <= mar1) by (vm_compute; discriminate).
  exact (src_roundtrip_exact (H := iso_pandas)
           "AAPL" "Close" "2024-01-01" "2024-03-01"
           two_prices two_dates jan1 mar1 [] empty_world
           eq_refl eq_refl eq_refl eq_refl eq_refl eq_refl eq_refl Hle
           eq_refl eq_refl (fun x (Hx : In x []) => match Hx with end)).
Defined.

(** * Part III: further properties of the code *)

(** ** More on the classifier *)

(** X1.  For a valid request, the classifier answers "exact" or "contains"
    (no fetch is needed) exactly when the cached interval covers the
    requested one. *)
Theorem check_date_overlap_covered cs ce rs re :
  rs <= re ->
  (In (status_of (_check_date_overlap cs ce rs re)) ["exact"; "contains"]
   <-> cs <= rs /\ re <= ce).
Proof.
  intros Hr.
  destruct (check_date_overlap_cases cs ce rs re)
    as [(G & E) | [(? & G & E) | [(? & ? & G & E) | [(? & ? & G & ? & E)
       | [(? & ? & G & ? & ? & E) | (? & ? & G & ? & ? & E)]]]]];
    cbv zeta in E; rewrite E; cbn [status_of fst In];
    unfold g_disjoint, g_equal, g_contains, g_after, g_before in *;
    split;
    try (intros [Hs | [Hs | []]]; try discriminate Hs; lia);
    try (intros _; auto; fail);
    try (intros Hcov; exfalso; lia).
Qed.

Lemma check_date_overlap_covered_witness :
  In (status_of (_check_date_overlap 0 100 10 20)) ["exact"; "contains"].
Proof.
  apply (check_date_overlap_covered 0 100 10 20); lia.
Defined.

(** X2.  For calendar-date intervals within the nanosecond range, when the
    call of the classifier returns a gap, the days of the request are
    split in two by it: a day of the request is either a cached day or a
    day of the gap, never both, and every day of the gap is a day of the
    request.  Fetching the gap is enough, and fetches no day the cache
    has. *)
Theorem check_date_overlap_gap_partition cs ce rs re st gs ge d :
  date_interval cs ce -> date_interval rs re ->
  in_ns_range cs -> in_ns_range ce -> in_ns_range rs -> in_ns_range re ->
  is_date d ->
  check_date_overlap_call cs ce rs re = Ok (st, Some gs, Some ge) ->
  (within rs re d <-> (within cs ce d /\ within rs re d) \/ within gs ge d) /\
  ~ (within cs ce d /\ within gs ge d).
Proof.
  intros (Dcs & Dce & Hc) (Drs & Dre & Hr) _ _ _ _ Dd Hcall.
  pose proof (check_date_overlap_call_returns _ _ _ _ _ Hcall) as Hres.
  symmetry in Hres. clear Hcall.
  pose proof (next_date_le ce d Dce Dd) as Hafter.
  pose proof (next_date_le d cs Dd Dcs) as Hbefore.
  unfold one_day in Hafter, Hbefore.
  assert (HD : 0 < Timedelta_days 1) by reflexivity.
  destruct (check_date_overlap_cases cs ce rs re)
    as [(G & E) | [(? & G & E) | [(? & ? & G & E) | [(? & ? & ? & G & E)
       | [(? & ? & ? & ? & G & E) | (? & ? & ? & ? & G & E)]]]]];
    cbv zeta in E; rewrite E in Hres; try discriminate Hres;
    injection Hres as <- <- <-;
    unfold g_disjoint, g_equal, g_contains, g_after, g_before, within in *;
    generalize dependent (Timedelta_days 1); intros D Hafter Hbefore HD; lia.
Qed.

Lemma check_date_overlap_gap_partition_witness :
  let d := Timedelta_days 19800 in
  within jan1 (Timedelta_days 19875) d /\
  within (Timedelta_days 19784) (Timedelta_days 19875) d /\
  ~ within jan1 mar1 d.
Proof.
  assert (D1 : date_interval jan1 mar1)
    by (unfold date_interval, is_date; repeat split; [reflexivity .. | discriminate]).
  assert (D2 : date_interval jan1 (Timedelta_days 19875))
    by (unfold date_interval, is_date; repeat split; [reflexivity .. | discriminate]).
  assert (R1 : in_ns_range jan1) by (split; discriminate).
  assert (R2 : in_ns_range mar1) by (split; discriminate).
  assert (R3 : in_ns_range (Timedelta_days 19875)) by (split; discriminate).
  destruct (check_date_overlap_gap_partition jan1 mar1 jan1 (Timedelta_days 19875)
              "overlap_after" (Timedelta_days 19784) (Timedelta_days 19875)
              (Timedelta_days 19800) D1 D2 R1 R2 R1 R3 eq_refl eq_refl)
    as [Hsplit Hdisj].
  assert (Hg : within (Timedelta_days 19784) (Timedelta_days 19875) (Timedelta_days 19800))
    by (split; discriminate).
  split; [apply Hsplit; right; exact Hg | split; [exact Hg |]].
  intros Hc. apply Hdisj. split; assumption.
Defined.

Lemma check_date_overlap_mirror_exact cs ce rs re :
  let r := _check_date_overlap cs ce rs re in
  let r' := _check_date_overlap (- ce) (- cs) (- re) (- rs) in
  status_of r' = mirror_status (status_of r) /\
  gap_start_of r' = option_map Z.opp (gap_end_of r) /\
  gap_end_of r' = option_map Z.opp (gap_start_of r).
Proof.
  cbv zeta.
  destruct (check_date_overlap_cases cs ce rs re)
    as [(G & E) | [(? & G & E) | [(? & ? & G & E) | [(? & ? & ? & G & E)
       | [(? & ? & ? & ? & G & E) | (? & ? & ? & ? & G & E)]]]]];
    cbv zeta in E; rewrite E; clear E;
    destruct (check_date_overlap_cases (- ce) (- cs) (- re) (- rs))
      as [(G' & E') | [(? & G' & E') | [(? & ? & G' & E') | [(? & ? & ? & G' & E')
         | [(? & ? & ? & ? & G' & E') | (? & ? & ? & ? & G' & E')]]]]];
    cbv zeta in E'; rewrite E'; clear E';
    unfold g_disjoint, g_equal, g_contains, g_after, g_before in *;
    try (exfalso; lia);
    cbn [status_of gap_start_of gap_end_of fst snd option_map];
    (split; [reflexivity | split; [try reflexivity | try reflexivity]]);
    f_equal; lia.
Qed.

Lemma bound_representable_opp o :
  bound_representable (option_map Z.opp o) = bound_representable o.
Proof.
  destruct o as [t |]; [| reflexivity].
  cbn. unfold in_ns_range_b, ns_min, ns_max.
  destruct (Z.leb_spec (-9223372036854775807) (- t)),
           (Z.leb_spec (- t) 9223372036854775807),
           (Z.leb_spec (-9223372036854775807) t),
           (Z.leb_spec t 9223372036854775807); cbn; try reflexivity; lia.
Qed.

(** X3.  The classifier is symmetric under time reversal, on timestamps of
    the nanosecond range: reflecting both intervals about the origin
    keeps "miss", "exact" and "contains" and swaps "overlap_after" with
    "overlap_before", the gap being reflected with them; and the call on
    the reflected intervals raises exactly when the call on the given
    ones does. *)
Theorem check_date_overlap_mirror cs ce rs re :
  in_ns_range cs -> in_ns_range ce -> in_ns_range rs -> in_ns_range re ->
  check_date_overlap_call (- ce) (- cs) (- re) (- rs)
  = mirror_result (check_date_overlap_call cs ce rs re).
Proof.
  intros _ _ _ _.
  destruct (check_date_overlap_mirror_exact cs ce rs re) as (Hs & Hg1 & Hg2).
  unfold check_date_overlap_call. cbv zeta.
  assert (Hrep : representable (_check_date_overlap (- ce) (- cs) (- re) (- rs))
                 = representable (_check_date_overlap cs ce rs re)).
  { unfold representable. rewrite Hg1, Hg2, !bound_representable_opp.
    apply andb_comm. }
  rewrite Hrep.
  destruct (representable (_check_date_overlap cs ce rs re)); [| reflexivity].
  cbn [mirror_result]. rewrite <- Hs, <- Hg1, <- Hg2.
  destruct (_check_date_overlap (- ce) (- cs) (- re) (- rs)) as [[a b] c].
  reflexivity.
Qed.

Lemma check_date_overlap_mirror_witness :
  check_date_overlap_call (- mar1) (- jan1) (- Timedelta_days 19875) (- jan1)
  = Ok ("overlap_before", Some (- Timedelta_days 19875),
        Some (- Timedelta_days 19784)).
Proof.
  assert (R1 : in_ns_range jan1) by (split; discriminate).
  assert (R2 : in_ns_range mar1) by (split; discriminate).
  assert (R3 : in_ns_range (Timedelta_days 19875)) by (split; discriminate).
  exact (check_date_overlap_mirror jan1 mar1 jan1 (Timedelta_days 19875)
           R1 R2 R1 R3).
Defined.

(** ** More on the cache lookup *)

Lemma load_loop_frame `{Pandas} es ticker price_col s e :
  forall w,
  let w' := snd (load_loop es ticker price_col s e w) in
  cache_dir w' = cache_dir w /\ remote w' = remote w /\
  fetches w' = fetches w /\ stdout w' = stdout w /\ clock w' = clock w /\
  exists ws,
    log w' = List.app (log w) ws /\
    Forall (fun r => exists x ex,
              In x es /\ r = LogWarning (e_name x) ex /\ caught ex = true) ws.
Proof.
  induction es as [| x es IH]; intros w.
  - cbn. repeat split. exists []. rewrite List.app_nil_r. split; [reflexivity | constructor].
  - assert (Hrest : forall w0,
      let w' := snd (load_loop es ticker price_col s e w0) in
      cache_dir w' = cache_dir w0 /\ remote w' = remote w0 /\
      fetches w' = fetches w0 /\ stdout w' = stdout w0 /\ clock w' = clock w0 /\
      exists ws,
        log w' = List.app (log w0) ws /\
        Forall (fun r => exists y ex,
                  In y (x :: es) /\ r = LogWarning (e_name y) ex /\ caught ex = true) ws).
    { intros w0. destruct (IH w0) as (? & ? & ? & ? & ? & ws & Hl & Hf).
      repeat split; try assumption. exists ws. split; [exact Hl |].
      eapply List.Forall_impl; [| exact Hf].
      intros r (y & ex & Hy & Hr & Hc). exists y, ex. split; [right; exact Hy | auto]. }
    cbn [load_loop].
    destruct (negb (e_is_file x) || negb (String.eqb (path_suffix (e_name x)) ".pkl"));
      [apply Hrest |].
    destruct (try_entry x ticker price_col s e) as [[r |] | ex].
    + cbn. repeat split. exists []. rewrite List.app_nil_r.
      split; [reflexivity | constructor].
    + apply Hrest.
    + destruct (caught ex) eqn:Hc.
      * unfold bind, logger.
        change (load_loop es ticker price_col s e _)
          with (load_loop es ticker price_col s e
                  (add_log [LogWarning (e_name x) ex] w)).
        destruct (Hrest (add_log [LogWarning (e_name x) ex] w))
          as (? & ? & ? & ? & ? & ws & Hl & Hf).
        repeat split; try assumption.
        exists (LogWarning (e_name x) ex :: ws). split.
        -- rewrite Hl. cbn [add_log log]. rewrite <- List.app_assoc. reflexivity.
        -- constructor; [| exact Hf].
           exists x, ex. split; [left; reflexivity | split; [reflexivity | exact Hc]].
      * cbn. repeat split. exists []. rewrite List.app_nil_r.
        split; [reflexivity | constructor].
Qed.

(** X4.  The lookup reads only.  Whatever the directory holds and whatever
    the outcome, [_load_from_cache] leaves the directory, the remote
    source and its call log, standard output and the clock as they were;
    it may only append warnings to the log, each one about an entry of the
    directory and one of the exceptions it catches. *)
Theorem load_from_cache_reads_only `{Pandas} ticker price_col s e w :
  let w' := snd (_load_from_cache ticker price_col s e w) in
  cache_dir w' = cache_dir w /\ remote w' = remote w /\
  fetches w' = fetches w /\ stdout w' = stdout w /\ clock w' = clock w /\
  exists ws,
    log w' = List.app (log w) ws /\
    Forall (fun r => exists x ex es,
              cache_dir w = Some es /\ In x es /\
              r = LogWarning (e_name x) ex /\ caught ex = true) ws.
Proof.
  unfold _load_from_cache. destruct (cache_dir w) as [es |] eqn:Hdir.
  - destruct (load_loop_frame es ticker price_col s e w)
      as (H1 & H2 & H3 & H4 & H5 & ws & Hl & Hf).
    cbv zeta. rewrite H1, Hdir. repeat split; try assumption.
    exists ws. split; [exact Hl |].
    eapply List.Forall_impl; [| exact Hf].
    intros r (x & ex & Hx & Hr & Hc). exists x, ex, es. auto.
  - cbn. rewrite Hdir. repeat split. exists []. rewrite List.app_nil_r.
    split; [reflexivity | constructor].
Qed.

Lemma try_entry_shape `{Pandas} x ticker price_col s e r :
  try_entry x ticker price_col s e = Ok (Some r) ->
  exists df st gap,
    r = (Some df, st, gap) /\ single_column_frame price_col df /\
    (((st = "exact" \/ st = "contains") /\ gap = None) \/
     ((st = "overlap_after" \/ st = "overlap_before") /\ exists g, gap = Some g)).
Proof.
  unfold try_entry. cbv zeta.
  destruct (List.length (py_split "_" (path_stem (e_name x))) <? 4)%nat;
    [discriminate |].
  destruct (negb _ || negb _); [discriminate |].
  destruct (parse_cached _) as [cs |]; [| discriminate]. cbn [rbind].
  destruct (parse_cached _) as [ce |]; [| discriminate]. cbn [rbind].
  assert (Hset : forall ps idx df,
            df_set_index (DataFrame_of_column price_col ps) idx = Ok df ->
            single_column_frame price_col df).
  { intros ps idx df. unfold df_set_index, df_len, DataFrame_of_column.
    cbn [df_index Index_len df_columns].
    destruct (List.length idx =? List.length ps)%nat eqn:L; [| discriminate].
    intros [= <-]. exists idx, ps. split; [reflexivity |].
    apply Nat.eqb_eq. exact L. }
  destruct cs as [cs |], ce as [ce |];
    cbn [check_date_overlap_parsed rbind String.eqb Ascii.eqb Bool.eqb negb];
    try discriminate.
  unfold check_date_overlap_call. cbv zeta.
  destruct (representable (_check_date_overlap cs ce s e)); [| discriminate].
  cbn [rbind].
  destruct (check_date_overlap_cases cs ce s e)
    as [(G & E) | [(? & G & E) | [(? & ? & G & E) | [(? & ? & ? & G & E)
       | [(? & ? & ? & ? & G & E) | (? & ? & ? & ? & G & E)]]]]];
    cbv zeta in E; rewrite E; cbn [String.eqb Ascii.eqb Bool.eqb negb];
    try discriminate;
    (destruct (read_pickle x) as [data |]; [| discriminate]);
    cbn [rbind];
    (destruct (d_prices data) as [ps |]; [| discriminate]);
    cbn [rbind bdate_range_from];
    match goal with
    | |- context [rbind ?m _] => destruct m as [df |] eqn:Hdf; [| discriminate]
    end;
    cbn [rbind];
    assert (Hframe : single_column_frame price_col df)
      by (destruct (d_dates data); eapply Hset; exact Hdf);
    intros [= <-]; do 3 eexists; (split; [reflexivity |]);
    (split; [exact Hframe |]); eauto 6.
Qed.

(** X5.  What the lookup returns has one of three shapes: a miss with no
    frame and no gap; "exact" or "contains" with a frame and no gap;
    "overlap_after" or "overlap_before" with a frame and a gap.  The frame
    of a hit has the requested column alone, under a datetime index with
    one date per price.  An exception that leaves the lookup is one the
    [except] clause does not name. *)
Theorem load_from_cache_shape `{Pandas} ticker price_col s e w :
  match fst (_load_from_cache ticker price_col s e w) with
  | Ok r => well_shaped price_col r
  | Raise ex => caught ex = false
  end.
Proof.
  assert (Hmiss : well_shaped price_col (None, "miss", None)).
  { cbn. split; [left; reflexivity |]. split; [tauto |].
    split; [discriminate |].
    split; [contradiction | intros [Hs | Hs]; discriminate Hs]. }
  unfold _load_from_cache. destruct (cache_dir w) as [es |]; [| exact Hmiss].
  revert w. induction es as [| x es IH]; intros w; [exact Hmiss |].
  cbn [load_loop].
  destruct (negb (e_is_file x) || negb (String.eqb (path_suffix (e_name x)) ".pkl"));
    [apply IH |].
  destruct (try_entry x ticker price_col s e) as [[r |] | ex] eqn:Ht.
  - destruct (try_entry_shape _ _ _ _ _ _ Ht)
      as (df & st & gap & -> & Hframe & Hst).
    cbn. unfold categories. cbn [In].
    split; [| split; [| split; [| split]]].
    + destruct Hst as [[[-> | ->] _] | [[-> | ->] _]]; tauto.
    + split; [| discriminate].
      intros ->. destruct Hst as [[[Hs | Hs] _] | [[Hs | Hs] _]]; discriminate Hs.
    + intros d [= <-]. exact Hframe.
    + intros Hg. destruct Hst as [[_ ->] | [Hs _]]; [congruence | exact Hs].
    + intros Hs. destruct Hst as [[[-> | ->] _] | [_ [g ->]]]; [| | discriminate];
        destruct Hs as [Hs | Hs]; discriminate Hs.
  - apply IH.
  - destruct (caught ex) eqn:Hc; [| exact Hc].
    unfold bind, logger. apply IH.
Qed.

Lemma load_loop_set_cache_dir `{Pandas} es ticker price_col s e d :
  forall w,
  load_loop es ticker price_col s e (set_cache_dir d w)
  = (fst (load_loop es ticker price_col s e w),
     set_cache_dir d (snd (load_loop es ticker price_col s e w))).
Proof.
  induction es as [| x es IH]; intros w; [reflexivity |].
  cbn [load_loop].
  destruct (negb (e_is_file x) || negb (String.eqb (path_suffix (e_name x)) ".pkl"));
    [apply IH |].
  destruct (try_entry x ticker price_col s e) as [[r |] | ex];
    [reflexivity | apply IH |].
  destruct (caught ex); [| reflexivity].
  unfold bind, logger.
  change (load_loop es ticker price_col s e _)
    with (load_loop es ticker price_col s e
            (set_cache_dir d (add_log [LogWarning (e_name x) ex] w))) at 1.
  rewrite IH. reflexivity.
Qed.

Lemma load_loop_filter `{Pandas} es ticker price_col s e :
  forall w,
  load_loop es ticker price_col s e w
  = load_loop (List.filter is_pkl_file es) ticker price_col s e w.
Proof.
  induction es as [| x es IH]; intros w; [reflexivity |].
  cbn [load_loop List.filter]. unfold is_pkl_file at 1.
  destruct (e_is_file x) eqn:Hf; cbn [negb orb andb]; [| apply IH].
  destruct (String.eqb (path_suffix (e_name x)) ".pkl") eqn:Hs;
    cbn [negb]; [| apply IH].
  cbn [load_loop]. rewrite Hf, Hs. cbn [negb orb].
  destruct (try_entry x ticker price_col s e) as [[r |] | ex];
    [reflexivity | apply IH |].
  destruct (caught ex); [| reflexivity].
  unfold bind. destruct (logger (LogWarning (e_name x) ex) w) as [[[] | ex'] w1];
    [apply IH | reflexivity].
Qed.

(** X6.  Sub-directories and files whose extension is not [.pkl] play no
    part in the lookup: the answer and the log are those of the lookup in
    the directory with these entries removed. *)
Theorem load_from_cache_ignores_other_files `{Pandas} ticker price_col s e es w :
  cache_dir w = Some es ->
  let w_pkl := set_cache_dir (Some (List.filter is_pkl_file es)) w in
  fst (_load_from_cache ticker price_col s e w)
  = fst (_load_from_cache ticker price_col s e w_pkl) /\
  log (snd (_load_from_cache ticker price_col s e w))
  = log (snd (_load_from_cache ticker price_col s e w_pkl)).
Proof.
  intros Hdir w_pkl. subst w_pkl. unfold _load_from_cache.
  rewrite Hdir. cbn [cache_dir set_cache_dir].
  rewrite load_loop_set_cache_dir. cbn [fst snd set_cache_dir log].
  rewrite <- load_loop_filter. split; reflexivity.
Qed.

Lemma load_from_cache_ignores_other_files_witness :
  fst (_load_from_cache "AAPL" "Close" jan1 mar1
         (world_with [subdirectory; readme_file; sound_entry_jan_mar]))
  = fst (_load_from_cache "AAPL" "Close" jan1 mar1
           (world_with [sound_entry_jan_mar])).
Proof.
  exact (proj1 (load_from_cache_ignores_other_files "AAPL" "Close" jan1 mar1
                  [subdirectory; readme_file; sound_entry_jan_mar]
                  (world_with [subdirectory; readme_file; sound_entry_jan_mar])
                  eq_refl)).
Defined.

(** No part of a split string holds the separator. *)
Lemma py_split_parts sep s :
  Forall (fun p => py_contains sep p = false) (py_split sep s).
Proof.
  induction s as [| c s IH]; [repeat constructor |].
  cbn. destruct (Ascii.eqb c sep) eqn:E.
  - constructor; [reflexivity | exact IH].
  - destruct (py_split sep s) as [| p ps]; [repeat constructor; cbn; rewrite E; reflexivity |].
    inversion IH as [| ? ? Hp Hps]; subst.
    constructor; [| exact Hps]. cbn. rewrite E, Hp. reflexivity.
Qed.

Lemma part_no_underscore i x : py_contains "_" (part i x) = false.
Proof.
  unfold part, name_parts.
  pose proof (py_split_parts "_" (path_stem (e_name x))) as Hall.
  revert i. induction Hall as [| p ps Hp _ IH]; intros [| i]; cbn; auto.
Qed.

(** Entries of other tickers or other columns are passed over in
    silence. *)
Lemma load_loop_other_keys `{Pandas} ticker price_col s e es rest w :
  (forall x, In x es -> part 0 x <> ticker \/ part 1 x <> price_col) ->
  load_loop (List.app es rest) ticker price_col s e w
  = load_loop rest ticker price_col s e w.
Proof.
  intros Hne. induction es as [| x es IH]; [reflexivity |].
  cbn [List.app load_loop].
  assert (IH' := IH (fun y Hy => Hne y (or_intror Hy))).
  destruct (negb (e_is_file x) || negb (String.eqb (path_suffix (e_name x)) ".pkl"));
    [exact IH' |].
  assert (Ht : try_entry x ticker price_col s e = Ok None).
  { unfold try_entry. fold (name_parts x). cbv zeta.
    destruct (List.length (name_parts x) <? 4)%nat; [reflexivity |].
    change (nth 0 (name_parts x) EmptyString) with (part 0 x).
    change (nth 1 (name_parts x) EmptyString) with (part 1 x).
    destruct (Hne x (or_introl eq_refl)) as [Hk | Hk];
      rewrite (proj2 (String.eqb_neq _ _) Hk); cbn [negb orb];
      [reflexivity | rewrite orb_true_r; reflexivity]. }
  rewrite Ht. exact IH'.
Qed.

(** X7.  The file name is cut at every underscore, so a ticker or a price
    column that contains one can never equal a part of a file name: the
    lookup for such a key is a miss in every directory, also right after
    the entry was saved for it. *)
Theorem load_from_cache_underscore_key `{Pandas} ticker price_col s e w :
  py_contains "_" ticker = true \/ py_contains "_" price_col = true ->
  _load_from_cache ticker price_col s e w = (Ok (None, "miss", None), w).
Proof.
  intros Hkey. unfold _load_from_cache.
  destruct (cache_dir w) as [es |]; [| reflexivity].
  rewrite <- (List.app_nil_r es).
  rewrite load_loop_other_keys; [reflexivity |].
  intros x _. destruct Hkey as [Hk | Hk]; [left | right];
    intros Heq; rewrite <- Heq, part_no_underscore in Hk; discriminate Hk.
Qed.

Lemma load_from_cache_underscore_key_witness :
  e_name brk_b_entry = "BRK_B_Close_2024-01-01_2024-03-01.pkl" /\
  _load_from_cache "BRK_B" "Close" jan1 mar1 (world_with [brk_b_entry])
  = (Ok (None, "miss", None), world_with [brk_b_entry]).
Proof.
  split; [reflexivity |].
  exact (load_from_cache_underscore_key "BRK_B" "Close" jan1 mar1
           (world_with [brk_b_entry]) (or_introl eq_refl)).
Defined.

(** ** Writing to the cache directory *)

Lemma find_replace_entry nm c es es' :
  replace_entry nm c es = Some es' ->
  find_entry nm es' = Some (file nm c) /\
  (forall nm', nm' <> nm -> find_entry nm' es' = find_entry nm' es) /\
  List.length es' = List.length es.
Proof.
  revert es'. induction es as [| x es IH]; intros es'; [discriminate |].
  cbn [replace_entry]. destruct (String.eqb (e_name x) nm) eqn:E.
  - intros [= <-]. apply String.eqb_eq in E.
    cbn [find_entry e_name]. rewrite String.eqb_refl.
    split; [reflexivity |]. split; [| reflexivity].
    intros nm' Hne. rewrite E.
    rewrite (proj2 (String.eqb_neq nm nm')) by congruence. reflexivity.
  - destruct (replace_entry nm c es) as [es1 |]; [| discriminate].
    intros [= <-]. destruct (IH es1 eq_refl) as (Hf & Ho & Hl).
    cbn [find_entry List.length]. rewrite E.
    split; [exact Hf |]. split; [| congruence].
    intros nm' Hne. destruct (String.eqb (e_name x) nm'); [reflexivity |].
    apply Ho, Hne.
Qed.

Lemma replace_entry_found nm c es x :
  find_entry nm es = Some x -> exists es', replace_entry nm c es = Some es'.
Proof.
  revert x. induction es as [| y es IH]; intros x; [discriminate |].
  cbn. destruct (String.eqb (e_name y) nm); [eauto |].
  intros Hx. destruct (IH x Hx) as [es' ->]. cbn. eauto.
Qed.

Lemma find_entry_app_new nm c es :
  find_entry nm es = None ->
  find_entry nm (List.app es [file nm c]) = Some (file nm c) /\
  (forall nm', nm' <> nm ->
     find_entry nm' (List.app es [file nm c]) = find_entry nm' es).
Proof.
  induction es as [| x es IH]; cbn [List.app find_entry].
  - intros _. cbn [file e_name]. rewrite String.eqb_refl. split; [reflexivity |].
    intros nm' Hne.
    rewrite (proj2 (String.eqb_neq nm nm')) by congruence. reflexivity.
  - destruct (String.eqb (e_name x) nm) eqn:E; [discriminate |].
    intros Hn. destruct (IH Hn) as [Hf Ho]. split; [exact Hf |].
    intros nm' Hne. destruct (String.eqb (e_name x) nm'); [reflexivity |].
    apply Ho, Hne.
Qed.

Lemma write_pickle_written nm data es w :
  cache_dir w = Some es ->
  py_contains "/" nm = false ->
  (forall x, find_entry nm es = Some x -> e_is_file x = true) ->
  exists w',
    write_pickle nm data w = (Ok tt, w') /\ written nm data es w' /\
    remote w' = remote w /\ fetches w' = fetches w /\ log w' = log w /\
    stdout w' = stdout w /\ clock w' = clock w.
Proof.
  intros Hdir Hslash Hfile. unfold write_pickle. rewrite Hdir, Hslash.
  destruct (find_entry nm es) as [x |] eqn:F.
  - rewrite (Hfile x eq_refl).
    destruct (replace_entry_found nm (Pickled data) es x F) as [es' R].
    rewrite R. destruct (find_replace_entry _ _ _ _ R) as (Hf & Ho & Hl).
    eexists. split; [reflexivity |]. split; [| repeat split].
    exists es'. cbn [cache_dir set_cache_dir]. rewrite F. auto.
  - destruct (find_entry_app_new nm (Pickled data) es F) as [Hf Ho].
    eexists. split; [reflexivity |]. split; [| repeat split].
    eexists. cbn [cache_dir set_cache_dir]. split; [reflexivity |].
    rewrite F. split; [exact Hf |]. split; [exact Ho |].
    rewrite List.length_app. cbn. lia.
Qed.

(** X8.  [_save_to_cache], in both copies, on an existing directory, for a
    path directly under it that is not taken by a sub-directory: the call
    succeeds; the path then holds the dict of the call (the prices and
    dates given, their number as ['n_prices'], the time of the clock);
    every other entry is what it was, so nothing is deleted; an entry is
    added only when the path was new; the logger gets one debug record and
    the remote source is not called. *)
Theorem save_to_cache_stores nm (ps : list price) price_col (ds : list Timestamp)
  ticker start end_ es w :
  cache_dir w = Some es ->
  py_contains "/" nm = false ->
  (forall x, find_entry nm es = Some x -> e_is_file x = true) ->
  let pkg := PkgLoader._save_to_cache nm ps price_col ds ticker start end_ w in
  let src := SrcLoader._save_to_cache nm ps ds ticker start end_ w in
  (fst pkg = Ok tt /\
   written nm (pkg_payload ps price_col ds ticker start end_ (clock w)) es (snd pkg) /\
   log (snd pkg) = List.app (log w) [LogDebug nm] /\
   fetches (snd pkg) = fetches w) /\
  (fst src = Ok tt /\
   written nm (src_payload ps ds ticker start end_ (clock w)) es (snd src) /\
   log (snd src) = List.app (log w) [LogDebug nm] /\
   fetches (snd src) = fetches w).
Proof.
  intros Hdir Hslash Hfile pkg src. subst pkg src.
  unfold PkgLoader._save_to_cache, SrcLoader._save_to_cache.
  unfold bind, now_isoformat, logger.
  split.
  - destruct (write_pickle_written nm
                (pkg_payload ps price_col ds ticker start end_ (clock w))
                es w Hdir Hslash Hfile)
      as (w' & Hw & (es' & Hd & Hrest) & ? & Hfe & Hlog & ? & ?).
    unfold pkg_payload in Hw. rewrite Hw. cbn [fst snd log fetches].
    split; [reflexivity |]. split; [| split; congruence].
    exists es'. cbn [cache_dir]. split; [exact Hd | exact Hrest].
  - destruct (write_pickle_written nm
                (src_payload ps ds ticker start end_ (clock w))
                es w Hdir Hslash Hfile)
      as (w' & Hw & (es' & Hd & Hrest) & ? & Hfe & Hlog & ? & ?).
    unfold src_payload in Hw. rewrite Hw. cbn [fst snd log fetches].
    split; [reflexivity |]. split; [| split; congruence].
    exists es'. cbn [cache_dir]. split; [exact Hd | exact Hrest].
Qed.

Lemma save_to_cache_stores_witness :
  let nm := "AAPL_Close_2024-01-01_2024-03-01.pkl" in
  let w := world_with [readme_file; miscounted_entry] in
  let src := SrcLoader._save_to_cache nm two_prices two_dates
               "AAPL" "2024-01-01" "2024-03-01" w in
  fst src = Ok tt /\
  written nm (src_payload two_prices two_dates "AAPL" "2024-01-01" "2024-03-01"
                (clock w)) [readme_file; miscounted_entry] (snd src).
Proof.
  intros nm w src.
  destruct (proj2 (save_to_cache_stores nm two_prices "Close" two_dates
                     "AAPL" "2024-01-01" "2024-03-01"
                     [readme_file; miscounted_entry] w eq_refl eq_refl
                     (fun x (Hx : find_entry nm [readme_file; miscounted_entry] = Some x) =>
                        match Hx in _ = o return
                              match o with Some y => e_is_file y = true | None => True end
                        with eq_refl => eq_refl end)))
    as (Hok & Hw & _).
  split; [exact Hok | exact Hw].
Defined.

(** X9.  The other copy of the loader, where the derived path ends in
    [.pkl]: a loader is constructed on a directory that is missing or
    holds no entry of this ticker, a series is saved under the derived
    path, and the same interval is looked up.  The answer is "exact", with
    the saved prices at the saved dates.  The ticker, the column and the
    two date strings have no underscore, the path no slash, the dates
    parse in order, and there is one date per price. *)
Theorem src_session_exact `{Pandas} t c d0 d1 (ps : list price)
  (ds : list Timestamp) s e w :
  py_contains "_" t = false -> py_contains "_" c = false ->
  py_contains "_" d0 = false -> py_contains "_" d1 = false ->
  py_contains "/" (SrcLoader._get_cache_path t c (d0, d1)) = false ->
  to_datetime d0 = Some s -> to_datetime d1 = Some e -> s <= e ->
  List.length ds = List.length ps ->
  match cache_dir w with
  | None => True
  | Some es => forall x, In x es -> part 0 x <> t
  end ->
  fst (src_session t c d0 d1 ps ds s e w)
  = Ok (Some {| df_index := DatetimeIndex ds; df_columns := [(c, ps)] |},
        "exact", None).
Proof.
  intros Ht Hc H0 H1 Hslash Hs He Hle Hlen Hdir.
  unfold src_session, bind, DataLoader_init.
  destruct (cache_dir w) as [es |] eqn:D.
  - destruct (src_roundtrip_exact t c d0 d1 ps ds s e es w
                Ht Hc H0 H1 Hslash Hs He Hle Hlen D Hdir) as [Hsave Hload].
    cbv zeta in Hsave, Hload.
    destruct (SrcLoader._save_to_cache _ ps ds t d0 d1 w) as [r w1].
    cbn [fst snd] in Hsave, Hload. subst r. exact Hload.
  - destruct (src_roundtrip_exact t c d0 d1 ps ds s e [] (set_cache_dir (Some []) w)
                Ht Hc H0 H1 Hslash Hs He Hle Hlen eq_refl
                (fun x (Hx : In x []) => match Hx with end)) as [Hsave Hload].
    cbv zeta in Hsave, Hload.
    destruct (SrcLoader._save_to_cache _ ps ds t d0 d1 _) as [r w1].
    cbn [fst snd] in Hsave, Hload. subst r. exact Hload.
Qed.

Lemma src_session_exact_witness :
  fst (src_session "AAPL" "Close" "2024-01-01" "2024-03-01"
         two_prices two_dates jan1 mar1 (set_cache_dir None empty_world))
  = Ok (Some two_price_frame, "exact", None).
Proof.
  assert (Hle : jan1 <= mar1) by (vm_compute; discriminate).
  exact (src_session_exact (H := iso_pandas)
           "AAPL" "Close" "2024-01-01" "2024-03-01"
           two_prices two_dates jan1 mar1 (set_cache_dir None empty_world)
           eq_refl eq_refl eq_refl eq_refl eq_refl eq_refl eq_refl Hle
           eq_refl I).
Defined.

(** ** The package copy: what is saved is not seen *)

Lemma load_loop_answer `{Pandas} es ticker price_col s e w1 w2 :
  fst (load_loop es ticker price_col s e w1)
  = fst (load_loop es ticker price_col s e w2).
Proof.
  revert w1 w2. induction es as [| x es IH]; intros w1 w2; [reflexivity |].
  cbn [load_loop].
  destruct (negb (e_is_file x) || negb (String.eqb (path_suffix (e_name x)) ".pkl"));
    [apply IH |].
  destruct (try_entry x ticker price_col s e) as [[r |] | ex];
    [reflexivity | apply IH |].
  destruct (caught ex); [| reflexivity].
  unfold bind, logger. apply IH.
Qed.

Lemma py_rfind_app_absent c (a b : string) :
  py_contains c b = false -> py_rfind c (a ++ b) = py_rfind c a.
Proof.
  intros Hb. induction a as [| x a IH]; app_step.
  - apply py_rfind_absent, Hb.
  - rewrite IH. reflexivity.
Qed.

Lemma py_rfind_bound c s i : py_rfind c s = Some i -> (i < String.length s)%nat.
Proof.
  revert i. induction s as [| a s IH]; intros i; [discriminate |].
  cbn. destruct (py_rfind c s) as [j |].
  - intros [= <-]. specialize (IH j eq_refl). lia.
  - destruct (Ascii.eqb a c); [intros [= <-]; lia | discriminate].
Qed.

(** A slice that reaches past the end of [a] holds the character that
    follows [a]. *)
Lemma substring_reaches c (a b : string) :
  forall i n,
  (i <= String.length a)%nat -> (String.length a - i < n)%nat ->
  py_contains c (String.substring i n (a ++ String c b)) = true.
Proof.
  induction a as [| x a IH]; intros i n Hi Hn; app_step.
  - cbn in Hi. assert (i = 0)%nat by lia. subst i.
    destruct n as [| n]; [lia |]. cbn. rewrite Ascii.eqb_refl. reflexivity.
  - destruct i as [| i].
    + destruct n as [| n]; [lia |]. cbn.
      rewrite (IH 0%nat n) by (cbn in *; lia). apply orb_true_r.
    + cbn. apply IH; cbn in *; lia.
Qed.

(** The path the package copy derives never has the extension [.pkl]
    when the end date has no dot. *)
Lemma pkg_cache_path_suffix t c d0 d1 :
  py_contains "." d1 = false ->
  path_suffix (PkgLoader._get_cache_path t c (d0, d1)) <> ".pkl".
Proof.
  intros Hd1. unfold PkgLoader._get_cache_path. cbn [fst snd]. cbv zeta.
  set (a := (t ++ "_" ++ c ++ "_" ++ d0)%string).
  assert (Hshape : (t ++ "_" ++ c ++ "_" ++ d0 ++ "_" ++ d1)%string
                   = (a ++ String "_" d1)%string).
  { subst a. rewrite !append_assoc. reflexivity. }
  rewrite Hshape. unfold path_suffix, path_has_suffix.
  rewrite py_rfind_app_absent by (cbn; exact Hd1).
  destruct (py_rfind "." a) as [i |] eqn:R; [| discriminate].
  destruct ((0 <? i)%nat && (i <? String.length (a ++ String "_" d1) - 1)%nat);
    [| discriminate].
  apply py_rfind_bound in R.
  intros Heq.
  assert (Hu : py_contains "_"
                 (String.substring i (String.length (a ++ String "_" d1) - i)
                    (a ++ String "_" d1)) = true).
  { apply substring_reaches; [lia |]. rewrite length_append. cbn. lia. }
  rewrite Heq in Hu. discriminate Hu.
Qed.

Lemma filter_replace_entry nm c es es' :
  is_pkl_file (file nm c) = false ->
  replace_entry nm c es = Some es' ->
  List.filter is_pkl_file es' = List.filter is_pkl_file es.
Proof.
  intros Hnew. revert es'. induction es as [| x es IH]; intros es'; [discriminate |].
  cbn [replace_entry]. destruct (String.eqb (e_name x) nm) eqn:E.
  - intros [= <-]. apply String.eqb_eq in E.
    cbn [List.filter]. fold (file nm c). rewrite Hnew.
    assert (Hx : is_pkl_file x = false).
    { unfold is_pkl_file in *. cbn [file e_is_file e_name andb] in Hnew.
      rewrite E, Hnew. apply andb_false_r. }
    rewrite Hx. reflexivity.
  - destruct (replace_entry nm c es) as [es1 |]; [| discriminate].
    intros [= <-]. cbn [List.filter]. rewrite (IH es1 eq_refl). reflexivity.
Qed.

(** X10.  In the package copy nothing that [_save_to_cache] writes under
    a path from [_get_cache_path] is ever read: for every world, every
    series saved (end date without a dot) and every later request, the
    lookup answers what it answered before the save. *)
Theorem pkg_saved_entry_unseen `{Pandas} t c d0 d1 (ps : list price)
  (ds : list Timestamp) w t' c' s' e' :
  py_contains "." d1 = false ->
  let saved :=
    PkgLoader._save_to_cache (PkgLoader._get_cache_path t c (d0, d1))
      ps c ds t d0 d1 w in
  fst (_load_from_cache t' c' s' e' (snd saved))
  = fst (_load_from_cache t' c' s' e' w).
Proof.
  intros Hd1 saved. subst saved.
  pose proof (pkg_cache_path_suffix t c d0 d1 Hd1) as Hsuf.
  set (nm := PkgLoader._get_cache_path t c (d0, d1)) in *.
  assert (Hnew : forall data, is_pkl_file (file nm (Pickled data)) = false).
  { intros data. unfold is_pkl_file. cbn [file e_is_file e_name andb].
    apply String.eqb_neq, Hsuf. }
  unfold PkgLoader._save_to_cache, bind, now_isoformat, logger, write_pickle.
  unfold _load_from_cache.
  destruct (cache_dir w) as [es |] eqn:D; [| cbn; rewrite D; reflexivity].
  destruct (py_contains "/" nm); [cbn; rewrite D; reflexivity |].
  destruct (find_entry nm es) as [x |] eqn:F.
  - destruct (e_is_file x); [| cbn; rewrite D; reflexivity].
    match goal with
    | |- context [replace_entry nm ?c es] =>
        destruct (replace_entry nm c es) as [es' |] eqn:R
    end; [| cbn; rewrite D; reflexivity].
    cbn [fst snd cache_dir set_cache_dir].
    rewrite (load_loop_filter es'), (load_loop_filter es).
    rewrite (filter_replace_entry _ _ _ _ (Hnew _) R).
    apply load_loop_answer.
  - cbn [fst snd cache_dir set_cache_dir].
    rewrite (load_loop_filter (List.app es _)), (load_loop_filter es).
    rewrite List.filter_app. cbn [List.filter].
    fold (file nm (Pickled {| d_ticker := t; d_start := d0; d_end := d1;
                              d_fetched_at := clock w;
                              d_n_prices := Z.of_nat (List.length ps);
                              d_prices := Some ps; d_dates := Some ds;
                              d_price_col := Some c |})).
    rewrite Hnew, List.app_nil_r.
    apply load_loop_answer.
Qed.

Lemma pkg_saved_entry_unseen_witness :
  let saved :=
    PkgLoader._save_to_cache
      (PkgLoader._get_cache_path "AAPL" "Close" ("2024-01-01", "2024-03-01"))
      two_prices "Close" two_dates "AAPL" "2024-01-01" "2024-03-01" empty_world in
  fst (_load_from_cache "AAPL" "Close" jan1 mar1 (snd saved))
  = fst (_load_from_cache "AAPL" "Close" jan1 mar1 empty_world).
Proof.
  exact (pkg_saved_entry_unseen (H := iso_pandas)
           "AAPL" "Close" "2024-01-01" "2024-03-01" two_prices two_dates
           empty_world "AAPL" "Close" jan1 mar1 eq_refl).
Defined.

(** ** More on the fetch functions *)

(** X11.  [fetch_single_ticker] of the package copy never touches the
    cache directory, the logger, the clock or the remote data.  When both
    dates parse it makes exactly one request to the remote source, for the
    ticker and the two parsed dates, whatever the outcome; when one of
    them does not parse it raises ValueError before any request, and
    prints nothing. *)
Theorem fetch_single_ticker_effects `{Pandas} ticker price_col dates w :
  let r := fst (PkgLoader.fetch_single_ticker ticker price_col dates w) in
  let w' := snd (PkgLoader.fetch_single_ticker ticker price_col dates w) in
  cache_dir w' = cache_dir w /\ log w' = log w /\ clock w' = clock w /\
  remote w' = remote w /\
  match Timestamp_parse (fst dates), Timestamp_parse (snd dates) with
  | Some s, Some e => fetches w' = List.app (fetches w) [(ticker, s, e)]
  | _, _ => r = Raise ValueError /\ fetches w' = fetches w /\ stdout w' = stdout w
  end.
Proof.
  cbv zeta.
  destruct (fetch_single_ticker_world ticker price_col dates w)
    as (Hc & Hr & Hl & Hk & Hf).
  repeat (split; [assumption |]).
  destruct (Timestamp_parse dates.1) as [s |] eqn:Ps.
  - destruct (Timestamp_parse dates.2) as [e |] eqn:Pe.
    + apply Hf; reflexivity.
    + unfold PkgLoader.fetch_single_ticker, or_ValueError. unfold_M.
      rewrite Ps, Pe. repeat split.
  - unfold PkgLoader.fetch_single_ticker, or_ValueError. unfold_M.
    rewrite Ps. repeat split.
Qed.

(** X12.  With dates that parse and a remote source that answers with a
    frame, [fetch_single_ticker] returns None exactly when the frame is
    empty; the line it then prints is the same for every ticker, the text
    [{ticker}] included as it stands.  When the remote source raises, the
    same exception leaves [fetch_single_ticker]. *)
Theorem fetch_single_ticker_none `{Pandas} ticker price_col dates w s e :
  Timestamp_parse (fst dates) = Some s ->
  Timestamp_parse (snd dates) = Some e ->
  let r := fst (PkgLoader.fetch_single_ticker ticker price_col dates w) in
  let w' := snd (PkgLoader.fetch_single_ticker ticker price_col dates w) in
  (forall df, remote w ticker s e = Ok df ->
     (r = Ok None <-> df_empty df = true) /\
     (df_empty df = true ->
      stdout w' = List.app (stdout w) ["Dataframe vide pour {ticker}"])) /\
  (forall ex, remote w ticker s e = Raise ex -> r = Raise ex).
Proof.
  intros Ps Pe. cbv zeta. split.
  - intros df Hdf. split.
    + rewrite fetch_single_ticker_outcome. unfold single_outcome.
      rewrite Ps, Pe, Hdf.
      destruct (df_empty df) eqn:Hemp; [tauto |].
      split; [| discriminate].
      destruct (df_has_column df price_col); cbn [negb]; [| discriminate].
      unfold df_loc_column.
      destruct (assoc_get price_col (df_columns df)); [| discriminate].
      unfold series_empty. cbn [s_index].
      unfold df_empty in Hemp. apply orb_false_iff in Hemp as [Hlen _].
      unfold df_len in Hlen. rewrite Hlen. discriminate.
    + intros Hemp. unfold PkgLoader.fetch_single_ticker, or_ValueError. unfold_M.
      rewrite Ps, Pe. cbn [fst snd]. rewrite Hdf, Hemp. reflexivity.
  - intros ex Hex. rewrite fetch_single_ticker_outcome. unfold single_outcome.
    rewrite Ps, Pe, Hex. reflexivity.
Qed.

Lemma fetch_single_ticker_none_witness :
  fst (PkgLoader.fetch_single_ticker "DELISTED" "Close"
         ("2024-01-01", "2024-06-01") empty_world) = Ok None /\
  stdout (snd (PkgLoader.fetch_single_ticker "DELISTED" "Close"
                 ("2024-01-01", "2024-06-01") empty_world))
  = ["Dataframe vide pour {ticker}"].
Proof.
  destruct (proj1 (fetch_single_ticker_none (H := iso_pandas)
                     "DELISTED" "Close" ("2024-01-01", "2024-06-01") empty_world
                     _ _ eq_refl eq_refl) _ eq_refl) as [Hnone Hout].
  split; [apply Hnone; reflexivity | apply Hout; reflexivity].
Defined.

Lemma fetch_single_ticker_success_witness :
  fst (PkgLoader.fetch_single_ticker "AAPL" "Close"
         ("2024-01-01", "2024-06-01") empty_world)
  = Ok (Some {| values := {| s_index := DatetimeIndex two_dates;
                             s_values := two_prices; s_name := "Close" |};
                name := "Close" |}).
Proof.
  exact (fetch_single_ticker_success (H := iso_pandas)
           "AAPL" "Close" ("2024-01-01", "2024-06-01") empty_world
           _ _ _ two_prices eq_refl eq_refl eq_refl eq_refl eq_refl).
Defined.

Lemma fetch_single_ticker_twice_witness :
  let '(r1, r2, w2) :=
    twice (PkgLoader.fetch_single_ticker "NOCLOSE" "Close"
             ("2024-01-01", "2024-06-01")) empty_world in
  r1 = r2 /\ List.length (fetches w2) = 2%nat /\ cache_dir w2 = Some [].
Proof.
  pose proof (fetch_single_ticker_twice (H := iso_pandas)
                "NOCLOSE" "Close" ("2024-01-01", "2024-06-01") empty_world
                _ _ eq_refl eq_refl) as Hw.
  destruct (twice _ empty_world) as [[r1 r2] w2].
  destruct Hw as (Hr & Hf & Hc).
  split; [exact Hr | split; [rewrite Hf; reflexivity | exact Hc]].
Defined.

Lemma pkg_batch_fetches `{Pandas} price_col dates s e tickers :
  Timestamp_parse (fst dates) = Some s ->
  Timestamp_parse (snd dates) = Some e ->
  forall (m : gmap string PriceSeries) w,
  (forall t, In t tickers ->
     exists o, single_outcome (remote w) t price_col dates = Ok o) ->
  let res :=
    fetch_multiple_loop
      (fun ticker => PkgLoader.fetch_single_ticker ticker price_col dates)
      tickers m w in
  (exists m', fst res = Ok m') /\
  fetches (snd res) = List.app (fetches w) (map (fun t => (t, s, e)) tickers) /\
  cache_dir (snd res) = cache_dir w /\ log (snd res) = log w.
Proof.
  intros Ps Pe. induction tickers as [| a rest IH]; intros m w Hok.
  - cbn. rewrite List.app_nil_r. eauto.
  - destruct (Hok a (or_introl eq_refl)) as [o Ho].
    pose proof (fetch_single_ticker_outcome a price_col dates w) as Hout.
    destruct (fetch_single_ticker_world a price_col dates w)
      as (Hc & Hr & Hl & _ & Hf).
    specialize (Hf s e Ps Pe).
    cbn [fetch_multiple_loop]. unfold bind.
    destruct (PkgLoader.fetch_single_ticker a price_col dates w) as [r w1].
    cbn [fst snd] in *. rewrite Ho in Hout. subst r.
    assert (Hok1 : forall t, In t rest ->
              exists o, single_outcome (remote w1) t price_col dates = Ok o).
    { intros t Ht. rewrite Hr. apply Hok. right. exact Ht. }
    assert (Hstep : forall m0,
      let res := fetch_multiple_loop
                   (fun ticker => PkgLoader.fetch_single_ticker ticker price_col dates)
                   rest m0 w1 in
      (exists m', fst res = Ok m') /\
      fetches (snd res)
      = List.app (fetches w) (map (fun t => (t, s, e)) (a :: rest)) /\
      cache_dir (snd res) = cache_dir w /\ log (snd res) = log w).
    { intros m0. destruct (IH m0 w1 Hok1) as (Hm & Hfe & Hcd & Hlg).
      split; [exact Hm |]. cbv zeta. rewrite Hfe, Hf, Hcd, Hlg, Hc, Hl.
      rewrite <- List.app_assoc. auto. }
    destruct o as [p |]; apply Hstep.
Qed.

(** X14.  A batch over the implemented [fetch_single_ticker], with dates
    that parse and no ticker whose call raises: the remote source is asked
    once per ticker of the list, in the order of the list and with
    repetitions, and the cache directory and the log are left alone. *)
Theorem fetch_multiple_tickers_fetches `{Pandas} tickers price_col dates s e w :
  Timestamp_parse (fst dates) = Some s ->
  Timestamp_parse (snd dates) = Some e ->
  (forall t, In t tickers ->
     exists o, fst (PkgLoader.fetch_single_ticker t price_col dates w) = Ok o) ->
  let res :=
    fetch_multiple_tickers_with PkgLoader.fetch_single_ticker
      tickers price_col dates w in
  (exists m, fst res = Ok m) /\
  fetches (snd res) = List.app (fetches w) (map (fun t => (t, s, e)) tickers) /\
  cache_dir (snd res) = cache_dir w /\ log (snd res) = log w.
Proof.
  intros Ps Pe Hok. unfold fetch_multiple_tickers_with.
  apply (pkg_batch_fetches price_col dates s e tickers Ps Pe).
  intros t Ht. rewrite <- fetch_single_ticker_outcome. apply Hok, Ht.
Qed.

Lemma fetch_multiple_tickers_fetches_witness :
  map (fun c => fst (fst c))
    (fetches (snd (fetch_multiple_tickers_with PkgLoader.fetch_single_ticker
                     ["AAPL"; "DELISTED"; "AAPL"] "Close"
                     ("2024-01-01", "2024-06-01") empty_world)))
  = ["AAPL"; "DELISTED"; "AAPL"].
Proof.
  destruct (fetch_multiple_tickers_fetches (H := iso_pandas)
              ["AAPL"; "DELISTED"; "AAPL"] "Close" ("2024-01-01", "2024-06-01")
              _ _ empty_world eq_refl eq_refl) as (_ & Hf & _).
  { intros t [<- | [<- | [<- | []]]]; eexists; vm_compute; reflexivity. }
  rewrite Hf. reflexivity.
Defined.

(** ** More on the Asset constructor *)

Lemma upper_char_isspace c : py_isspace (upper_char c) = py_isspace c.
Proof. destruct c as [[] [] [] [] [] [] [] []]; reflexivity. Qed.

Lemma py_upper_whitespace s : whitespace_only (py_upper s) = whitespace_only s.
Proof.
  induction s as [| c s IH]; [reflexivity |].
  cbn. rewrite upper_char_isspace, IH. reflexivity.
Qed.

Lemma py_lstrip_upper s : py_lstrip (py_upper s) = py_upper (py_lstrip s).
Proof.
  induction s as [| c s IH]; [reflexivity |].
  cbn. rewrite upper_char_isspace. destruct (py_isspace c); [exact IH | reflexivity].
Qed.

Lemma py_rstrip_upper s : py_rstrip (py_upper s) = py_upper (py_rstrip s).
Proof.
  induction s as [| c s IH]; [reflexivity |].
  cbn. rewrite IH, upper_char_isspace.
  destruct (py_rstrip s); cbn; [destruct (py_isspace c) |]; reflexivity.
Qed.

Lemma py_strip_upper s : py_strip (py_upper s) = py_upper (py_strip s).
Proof. unfold py_strip. rewrite py_lstrip_upper, py_rstrip_upper. reflexivity. Qed.

Lemma py_lstrip_length s : (String.length (py_lstrip s) <= String.length s)%nat.
Proof.
  induction s as [| c s IH]; cbn; [lia |].
  destruct (py_isspace c); cbn; lia.
Qed.

Lemma py_rstrip_length s : (String.length (py_rstrip s) <= String.length s)%nat.
Proof.
  induction s as [| c s IH]; cbn; [lia |].
  destruct (py_rstrip s); [destruct (py_isspace c) |]; cbn in *; lia.
Qed.

Lemma py_lstrip_fixed s :
  String.length (py_lstrip s) = String.length s -> py_lstrip s = s.
Proof.
  destruct s as [| c s]; [reflexivity |].
  cbn. destruct (py_isspace c); [| reflexivity].
  pose proof (py_lstrip_length s). lia.
Qed.

Lemma py_rstrip_fixed s :
  String.length (py_rstrip s) = String.length s -> py_rstrip s = s.
Proof.
  induction s as [| c s IH]; [reflexivity |].
  cbn. pose proof (py_rstrip_length s) as Hle.
  destruct (py_rstrip s) as [| c' r] eqn:R.
  - destruct (py_isspace c); cbn; [lia |].
    intros [= Hlen]. destruct s; [reflexivity | discriminate].
  - cbn. intros [= Hlen]. rewrite IH; [reflexivity | exact Hlen].
Qed.

Lemma py_strip_fixed s :
  String.length (py_strip s) = String.length s -> py_strip s = s.
Proof.
  unfold py_strip. intros Hlen.
  pose proof (py_rstrip_length (py_lstrip s)).
  pose proof (py_lstrip_length s).
  assert (Hl : py_lstrip s = s) by (apply py_lstrip_fixed; lia).
  rewrite Hl in *. apply py_rstrip_fixed. exact Hlen.
Qed.

(** X17.  For a ticker of ASCII text: the constructor tests the stripped
    ticker but stores the ticker it was given, upper-cased and not
    stripped: the stored ticker has the length of the argument, stripping
    it gives the upper-cased stripped argument, and a ticker given with
    white space around it is stored with white space around it. *)
Theorem asset_init_keeps_padding {CurrencyEnum : Type}
  (ticker : string) (prices : PriceSeries) (sector : option string)
  (currency : CurrencyEnum) a :
  is_ascii ticker = true ->
  AssetModel.__init__ ticker prices sector currency = Ok a ->
  String.length (AssetModel.ticker a) = String.length ticker /\
  py_strip (AssetModel.ticker a) = py_upper (py_strip ticker) /\
  (py_strip ticker <> ticker ->
   py_strip (AssetModel.ticker a) <> AssetModel.ticker a).
Proof.
  intros _. unfold AssetModel.__init__.
  destruct (AssetModel.py_not ticker || AssetModel.py_not (py_strip ticker));
    [discriminate |].
  destruct (PriceSeries_len prices =? 0)%nat; [discriminate |].
  intros [= <-]. cbn [AssetModel.ticker].
  split; [apply py_upper_length |]. split; [apply py_strip_upper |].
  intros Hpad Heq. apply Hpad. apply py_strip_fixed.
  rewrite <- (py_upper_length (py_strip ticker)), <- py_strip_upper, Heq.
  apply py_upper_length.
Qed.

Lemma asset_init_keeps_padding_witness :
  let a := {| AssetModel.ticker := " AAPL "; AssetModel.prices := one_price_series;
              AssetModel.sector := None; AssetModel.currency := tt |} in
  AssetModel.__init__ " aapl " one_price_series None tt = Ok a /\
  py_strip (AssetModel.ticker a) <> AssetModel.ticker a.
Proof.
  intros a. split; [reflexivity |].
  refine (proj2 (proj2 (asset_init_keeps_padding " aapl " one_price_series
                          None tt a eq_refl eq_refl)) _).
  discriminate.
Defined.

(** X18.  Constructing an asset again from the fields of a constructed
    asset succeeds and gives the same asset: the normalisation of the
    ticker is idempotent, and the checks that passed pass again. *)
Theorem asset_init_stable {CurrencyEnum : Type}
  (ticker : string) (prices : PriceSeries) (sector : option string)
  (currency : CurrencyEnum) a :
  AssetModel.__init__ ticker prices sector currency = Ok a ->
  AssetModel.__init__ (AssetModel.ticker a) (AssetModel.prices a)
    (AssetModel.sector a) (AssetModel.currency a) = Ok a.
Proof.
  unfold AssetModel.__init__.
  destruct (AssetModel.py_not ticker || AssetModel.py_not (py_strip ticker)) eqn:E;
    [discriminate |].
  destruct (PriceSeries_len prices =? 0)%nat eqn:L; [discriminate |].
  intros [= <-]. cbn [AssetModel.ticker AssetModel.prices AssetModel.sector
                      AssetModel.currency].
  rewrite L, py_upper_idempotent.
  apply orb_false_iff in E as [E1 E2].
  rewrite py_strip_upper.
  destruct ticker as [| c t]; [discriminate E1 |].
  destruct (py_strip (String c t)) as [| c' t']; [discriminate E2 |].
  reflexivity.
Qed.

Lemma asset_init_stable_witness :
  let a := {| AssetModel.ticker := "AAPL"; AssetModel.prices := one_price_series;
              AssetModel.sector := None; AssetModel.currency := tt |} in
  AssetModel.__init__ "aapl" one_price_series None tt = Ok a /\
  AssetModel.__init__ "AAPL" one_price_series None tt = Ok a.
Proof.
  intros a. split; [reflexivity |].
  exact (asset_init_stable "aapl" one_price_series None tt a eq_refl).
Defined.
